(** * homebridge-daelim-smarthome: the camera streaming subsystem

    A shallow embedding of [src/homebridge/accessories/camera.ts]:
    the resolution planner, the transcoder progress parser, the
    transcoder process supervisor, the streaming delegate's session maps
    with their timers and sockets, the snapshot pipeline and the motion
    timer of the camera accessory.

    Conventions.
    - A JavaScript [number] that holds a pixel count, a port or a count
      is a [Z]; an instant, a duration in milliseconds or the fractional
      [rtcp_interval] is a [Q]; a number read from text may be [NaN].
    - A JavaScript [Map<string, V>] is a [gmap string V].
    - An object that closures share (an [ActiveSession]) lives in a store
      and is named by its reference.
    - Timers, sockets and child processes are handles into tables of the
      world; the event loop is a function from events to world
      transformers, and the passing of time is the event [elapse]. *)

From stdpp Require Import gmap strings list pretty.
From Stdlib Require Import Ascii String QArith Lqa.

Open Scope Z_scope.

(** ** JavaScript string and array primitives used by the source *)

Module JS.

(** [s.split(sep)] for a one-character separator: never the empty array. *)
Fixpoint split (sep : ascii) (s : string) : list string :=
  match s with
  | EmptyString => [EmptyString]
  | String a rest =>
      if Ascii.eqb a sep then EmptyString :: split sep rest
      else match split sep rest with
           | [] => [String a EmptyString]
           | piece :: pieces => String a piece :: pieces
           end
  end.

(** [arr.join(sep)]. *)
Definition join (sep : string) (arr : list string) : string :=
  String.concat sep arr.

(** [arr.indexOf(x)]: the first index holding [x], or [-1]. *)
Fixpoint indexOf_from (i : Z) (x : string) (arr : list string) : Z :=
  match arr with
  | [] => -1
  | y :: ys => if String.eqb y x then i else indexOf_from (i + 1) x ys
  end.

Definition indexOf (x : string) (arr : list string) : Z := indexOf_from 0 x arr.

(** [arr.splice(i, 1)] for [0 <= i]: the array without its [i]-th item. *)
Definition splice1 (i : Z) (arr : list string) : list string :=
  take (Z.to_nat i) arr ++ drop (S (Z.to_nat i)) arr.

(** [s.startsWith(p)], which is what [s.indexOf(p) === 0] tests. *)
Definition startsWith (p s : string) : bool := String.prefix p s.

(** Truthiness of an optional string: [undefined] and [""] are falsy. *)
Definition truthy (o : option string) : bool :=
  match o with
  | Some s => negb (String.eqb s "")
  | None => false
  end.

(** [x || dflt] on an optional string. *)
Definition or_else (o : option string) (dflt : string) : string :=
  if truthy o then default dflt o else dflt.

(** String conversion of an integral number. *)
Definition str (n : Z) : string := pretty n.

(** [hay.includes(needle)]. *)
Fixpoint includes (needle hay : string) : bool :=
  String.prefix needle hay ||
  match hay with
  | EmptyString => false
  | String _ rest => includes needle rest
  end.

(** The white space that [trim], [parseInt] and [parseFloat] skip. Strings
    are byte strings here: of the white space of ECMAScript only the ASCII
    part (tab, line feed, vertical tab, form feed, carriage return, space)
    is recognised. *)
Definition isSpace (c : ascii) : bool :=
  let n := nat_of_ascii c in
  ((9 <=? n)%nat && (n <=? 13)%nat) || (n =? 32)%nat.

Fixpoint skipSpace (cs : list ascii) : list ascii :=
  match cs with
  | c :: rest => if isSpace c then skipSpace rest else cs
  | [] => []
  end.

(** [s.trim()]. *)
Definition trim (s : string) : string :=
  string_of_list_ascii
    (rev (skipSpace (rev (skipSpace (list_ascii_of_string s))))).

(** The line feed, and text given line by line. *)
Definition LF : string := String "010" EmptyString.
Definition lines (ls : list string) : string := String.concat LF ls.

(** The result of evaluating code that may throw. *)
Inductive outcome (A : Type) :=
  | Returned (a : A)
  | Thrown (err : string).
Global Arguments Returned {A} a.
Global Arguments Thrown {A} err.

End JS.

(** ** The video configuration and the resolution planner *)

Record VideoConfig := {
  maxStreams : option Z;
  maxWidth : option Z;
  maxHeight : option Z;
  codec : option string;
  packetSize : option Z;
  forceMax : bool;
  videoFilter : option string;
  encoderOptions : option string;
  mapVideo : option string;
  mapAudio : option string;
  audio : bool;
  returnAudioTarget : option string
}.

(** The configuration that the constructor of [CameraAccessories] fixes. *)
Definition videoConfig : VideoConfig := {|
  maxStreams := Some 2;
  maxWidth := Some 1280;
  maxHeight := Some 720;
  codec := Some "libx264"%string;
  packetSize := Some 1316;
  forceMax := true;
  videoFilter := None;
  encoderOptions := None;
  mapVideo := None;
  mapAudio := None;
  audio := false;
  returnAudioTarget := None
|}.

(** The two fields of a [SnapshotRequest] or [VideoInfo] that the planner
    reads. *)
Record Dimensions := { req_width : Z; req_height : Z }.

Record ResolutionInfo := {
  width : Z;
  height : Z;
  res_videoFilter : option string;
  snapshotFilter : option string;
  resizeFilter : option string
}.

Module Resolution.

(** The clamp of one dimension: taken only for a live stream, when a
    maximum is configured and either forced or exceeded. *)
Definition clamp (isSnapshot : bool) (force : bool) (maxv : option Z) (v : Z) : Z :=
  if isSnapshot then v
  else match maxv with
       | Some m => if force || (m <? v) then m else v
       | None => v
       end.

(** The configured filter list: [videoFilter?.split(",") || []]. *)
Definition configured_filters (cfg : VideoConfig) : list string :=
  match videoFilter cfg with
  | Some f => JS.split "," f
  | None => []
  end.

Definition scale_filter (w h : Z) : string :=
  ("scale=" +:+ (if (0 <? w)%Z then "'min(" +:+ JS.str w +:+ ",iw)'" else "iw")
   +:+ ":" +:+ (if (0 <? h)%Z then "'min(" +:+ JS.str h +:+ ",ih)'" else "ih")
   +:+ ":force_original_aspect_ratio=decrease")%string.

Definition determineResolution (cfg : VideoConfig) (request : Dimensions)
    (isSnapshot : bool) : ResolutionInfo :=
  let w := clamp isSnapshot (forceMax cfg) (maxWidth cfg) (req_width request) in
  let h := clamp isSnapshot (forceMax cfg) (maxHeight cfg) (req_height request) in
  let filters0 := configured_filters cfg in
  let noneFilter := JS.indexOf "none" filters0 in
  let filters := if 0 <=? noneFilter then JS.splice1 noneFilter filters0 else filters0 in
  let snap := JS.join "," filters in
  let resize :=
    if (noneFilter <? 0) && ((0 <? w) || (0 <? h)) then Some (scale_filter w h)
    else None in
  let filters' :=
    match resize with
    | Some r => filters ++ [r; "scale=trunc(iw/2)*2:trunc(ih/2)*2"%string]
    | None => filters
    end in
  {| width := w;
     height := h;
     res_videoFilter :=
       match filters' with [] => None | _ => Some (JS.join "," filters') end;
     snapshotFilter := Some snap;
     resizeFilter := resize |}.

End Resolution.

(** ** Numbers read from text: [parseInt] and [parseFloat]

    A parsed number is kept as the decimal it denotes; the rounding to a
    binary64 value is not part of the model. *)

Module Number.

Inductive number :=
  | NaN
  | Infinity (negative : bool)
  | Dec (negative : bool) (mantissa : N) (exponent : Z).

Definition isDigit (c : ascii) : bool :=
  let n := nat_of_ascii c in (48 <=? n)%nat && (n <=? 57)%nat.

(** The value of a digit in radix 16, if it is one. *)
Definition hexValue (c : ascii) : option N :=
  let n := N_of_ascii c in
  if ((48 <=? n) && (n <=? 57))%N then Some (n - 48)%N
  else if ((97 <=? n) && (n <=? 102))%N then Some (n - 87)%N
  else if ((65 <=? n) && (n <=? 70))%N then Some (n - 55)%N
  else None.

Definition digitValue (radix : N) (c : ascii) : option N :=
  match hexValue c with
  | Some v => if (v <? radix)%N then Some v else None
  | None => None
  end.

(** The longest run of digits at the head of [cs], and what follows. *)
Fixpoint spanDigits (radix : N) (cs : list ascii) : list N * list ascii :=
  match cs with
  | c :: rest =>
      match digitValue radix c with
      | Some v => let '(ds, tl) := spanDigits radix rest in (v :: ds, tl)
      | None => ([], cs)
      end
  | [] => ([], [])
  end.

Definition valueOf (radix : N) (ds : list N) : N :=
  fold_left (fun acc d => (acc * radix + d)%N) ds 0%N.

(** An optional sign: whether it is a minus, and what follows. *)
Definition takeSign (cs : list ascii) : bool * list ascii :=
  match cs with
  | "-"%char :: rest => (true, rest)
  | "+"%char :: rest => (false, rest)
  | _ => (false, cs)
  end.

(** [parseInt(x)] with no radix; [undefined] is first converted to the
    string ["undefined"]. *)
Definition parseInt (x : option string) : number :=
  let s := default "undefined"%string x in
  let '(neg, cs) := takeSign (JS.skipSpace (list_ascii_of_string s)) in
  let '(radix, cs) :=
    match cs with
    | "0"%char :: "x"%char :: rest => (16%N, rest)
    | "0"%char :: "X"%char :: rest => (16%N, rest)
    | _ => (10%N, cs)
    end in
  match fst (spanDigits radix cs) with
  | [] => NaN
  | ds => Dec neg (valueOf radix ds) 0
  end.

(** The exponent part [e], [e+] or [e-] followed by at least one digit. *)
Definition exponentPart (cs : list ascii) : Z :=
  match cs with
  | c :: rest =>
      if Ascii.eqb c "e" || Ascii.eqb c "E" then
        let '(neg, rest') := takeSign rest in
        match fst (spanDigits 10 rest') with
        | [] => 0
        | ds => let v := Z.of_N (valueOf 10 ds) in if neg then - v else v
        end
      else 0
  | [] => 0
  end.

(** [parseFloat(x)]: the longest prefix that is a decimal literal. *)
Definition parseFloat (x : option string) : number :=
  let s := default "undefined"%string x in
  let '(neg, cs) := takeSign (JS.skipSpace (list_ascii_of_string s)) in
  if String.prefix "Infinity" (string_of_list_ascii cs) then Infinity neg
  else
    let '(ip, r1) := spanDigits 10 cs in
    let '(fp, r2) :=
      match r1 with
      | "."%char :: rest => spanDigits 10 rest
      | _ => ([], r1)
      end in
    match ip ++ fp with
    | [] => NaN
    | ds => Dec neg (valueOf 10 ds) (exponentPart r2 - Z.of_nat (List.length fp))
    end.

(** [x > 0]. *)
Definition positive (x : number) : bool :=
  match x with
  | NaN => false
  | Infinity neg => negb neg
  | Dec neg m _ => negb neg && (0 <? m)%N
  end.

End Number.

(** ** The progress parser of the transcoder supervisor *)

Record FFmpegProgress := {
  frame : Number.number;
  fps : Number.number;
  streamQ : Number.number;
  bitrate : Number.number;
  totalSize : Number.number;
  outTimeMicroseconds : Number.number;
  outTime : string;
  duplicateFrames : Number.number;
  dropFrames : Number.number;
  speed : Number.number;
  progress : string
}.

Module Progress.

Import Number.

(** One trailing carriage return less, if there is one. *)
Definition dropCR (s : string) : string :=
  match rev (list_ascii_of_string s) with
  | c :: before => if Ascii.eqb c "013" then string_of_list_ascii (rev before) else s
  | [] => s
  end.

Fixpoint dropCRs (pieces : list string) : list string :=
  match pieces with
  | [] => []
  | [lastp] => [lastp]
  | piece :: rest => dropCR piece :: dropCRs rest
  end.

(** [input.split(/\r?\n/)]: a line feed separates, and takes a carriage
    return just before it along. *)
Definition splitLines (input : string) : list string :=
  dropCRs (JS.split "010" input).

(** [line.split("=", 2)]: the first two of the pieces between equal signs. *)
Definition splitKeyValue (line : string) : string * option string :=
  match JS.split "=" line with
  | k :: v :: _ => (k, Some v)
  | [k] => (k, None)
  | [] => (EmptyString, None)
  end.

(** The [Map<string, string>] of the block; a line without an equal sign
    stores [undefined]. *)
Definition readBlock (input : string) : gmap string (option string) :=
  fold_left (fun m line => let '(k, v) := splitKeyValue line in <[k := v]> m)
            (splitLines input) ∅.

(** [progress.get(key)!]: [undefined] for a missing key and for a stored
    [undefined]. *)
Definition get (m : gmap string (option string)) (key : string) : option string :=
  mjoin (m !! key).

(** [x.trim()] where [x] may be [undefined]. *)
Definition trimOf (x : option string) : JS.outcome string :=
  match x with
  | Some s => JS.Returned (JS.trim s)
  | None => JS.Thrown "TypeError: Cannot read properties of undefined (reading 'trim')"
  end.

(** The body of the [try]: the object literal, its fields in order. *)
Definition buildProgress (m : gmap string (option string)) : JS.outcome FFmpegProgress :=
  match trimOf (get m "out_time") with
  | JS.Thrown err => JS.Thrown err
  | JS.Returned ot =>
      match trimOf (get m "progress") with
      | JS.Thrown err => JS.Thrown err
      | JS.Returned pr =>
          JS.Returned
            {| frame := parseInt (get m "frame");
               fps := parseFloat (get m "fps");
               streamQ := parseFloat (get m "stream_0_0q");
               bitrate := parseFloat (get m "bitrate");
               totalSize := parseInt (get m "total_size");
               outTimeMicroseconds := parseInt (get m "out_time_us");
               outTime := ot;
               duplicateFrames := parseInt (get m "dup_frames");
               dropFrames := parseInt (get m "drop_frames");
               speed := parseFloat (get m "speed");
               progress := pr |}
      end
  end.

Definition parseProgress (input : string) : option FFmpegProgress :=
  if JS.startsWith "frame=" input then
    match buildProgress (readBlock input) with
    | JS.Returned p => Some p
    | JS.Thrown _ => None
    end
  else None.

End Progress.

(** ** The transcoder process supervisor, [FFmpegProcess]

    The handlers that the constructor registers are functions from the
    state of the supervisor to its next state and to the effects they have
    on the rest of the program, in the order the handler performs them. *)

Inductive Level := Debug | Info | Warn | Error.

Module Ffmpeg.

Inductive Effect :=
  | Log (lvl : Level) (msg : string)
    (** a log line that reports a run time in seconds, kept as a number *)
  | LogRuntime (lvl : Level) (msg : string) (seconds : Q)
    (** [callback()] when [err] is [None], [callback(new Error(err))] otherwise *)
  | Callback (cb : nat) (err : option string)
  | StopStream (sessionId : string)
  | ForceStop (sessionId : string)
  | ClearTimeout (h : nat).

(** The fields of an [FFmpegProcess] and the variables its handlers close
    over. [callback] is the ready callback still held. *)
Record FFmpegProcess := {
  cameraName : string;
  sessionId : string;
  ffmpegArgs : string;
  callback : option nat;
  started : bool;
  startTime : Q;
  killTimeout : option nat;
  killed : bool
}.

Definition construct (cameraName sessionId ffmpegArgs : string)
    (callback : option nat) (now : Q) : FFmpegProcess :=
  {| cameraName := cameraName; sessionId := sessionId; ffmpegArgs := ffmpegArgs;
     callback := callback; started := false; startTime := now;
     killTimeout := None; killed := false |}.

Definition set_callback (cb : option nat) (p : FFmpegProcess) : FFmpegProcess :=
  {| cameraName := cameraName p; sessionId := sessionId p; ffmpegArgs := ffmpegArgs p;
     callback := cb; started := started p; startTime := startTime p;
     killTimeout := killTimeout p; killed := killed p |}.

Definition set_started (b : bool) (p : FFmpegProcess) : FFmpegProcess :=
  {| cameraName := cameraName p; sessionId := sessionId p; ffmpegArgs := ffmpegArgs p;
     callback := callback p; started := b; startTime := startTime p;
     killTimeout := killTimeout p; killed := killed p |}.

Definition set_killTimeout (h : option nat) (p : FFmpegProcess) : FFmpegProcess :=
  {| cameraName := cameraName p; sessionId := sessionId p; ffmpegArgs := ffmpegArgs p;
     callback := callback p; started := started p; startTime := startTime p;
     killTimeout := h; killed := killed p |}.

Definition set_killed (b : bool) (p : FFmpegProcess) : FFmpegProcess :=
  {| cameraName := cameraName p; sessionId := sessionId p; ffmpegArgs := ffmpegArgs p;
     callback := callback p; started := started p; startTime := startTime p;
     killTimeout := killTimeout p; killed := b |}.

(** The severity of a run time: low under 5 s, elevated under 22 s. *)
Definition runtimeLevel (seconds : Q) : Level :=
  if negb (Qle_bool 5 seconds) then Debug
  else if negb (Qle_bool 22 seconds) then Warn
  else Error.

Definition tag (p : FFmpegProcess) (text : string) : string :=
  ("[" +:+ cameraName p +:+ "] " +:+ text)%string.

(** [process.stdout.on("data", ...)] *)
Definition on_stdout (now : Q) (data : string) (p : FFmpegProcess)
    : FFmpegProcess * list Effect :=
  match Progress.parseProgress data with
  | Some progress =>
      if negb (started p) && Number.positive (frame progress) then
        let runtime := ((now - startTime p) / 1000)%Q in
        (set_started true p,
         [LogRuntime (runtimeLevel runtime)
            (tag p "Getting the first frames took ${runtime} seconds.") runtime])
      else (p, [])
  | None => (p, [])
  end.

(** [line.match(/(panic|fatal|error)/)] *)
Definition alarming (line : string) : bool :=
  JS.includes "panic" line || JS.includes "fatal" line || JS.includes "error" line.

(** [stderr.on("line", ...)] *)
Definition on_stderr_line (line : string) (p : FFmpegProcess)
    : FFmpegProcess * list Effect :=
  let '(p', fired) :=
    match callback p with
    | Some cb => (set_callback None p, [Callback cb None])
    | None => (p, [])
    end in
  (p', fired ++ [Log (if alarming line then Error else Debug) (tag p line)]).

(** [process.on("error", ...)] *)
Definition on_error (message : string) (p : FFmpegProcess)
    : FFmpegProcess * list Effect :=
  (p,
   [Log Error (tag p ("FFmpeg process creation failed: " +:+ message))]
   ++ match callback p with
      | Some cb => [Callback cb (Some "FFmpeg process creation failed"%string)]
      | None => []
      end
   ++ [StopStream (sessionId p)]).

Definition show_code (code : option Z) : string :=
  match code with Some c => JS.str c | None => "null"%string end.

Definition show_signal (signal : option string) : string :=
  default "null"%string signal.

(** [process.on("exit", ...)] *)
Definition on_exit (code : option Z) (signal : option string) (p : FFmpegProcess)
    : FFmpegProcess * list Effect :=
  let cleared :=
    match killTimeout p with Some h => [ClearTimeout h] | None => [] end in
  let message :=
    ("FFmpeg exited with code: " +:+ show_code code
     +:+ " and signal: " +:+ show_signal signal)%string in
  if bool_decide (is_Some (killTimeout p)) && bool_decide (code = Some 0) then
    (p, cleared ++ [Log Debug (tag p (message +:+ " (Expected)"))])
  else if bool_decide (code = None) || bool_decide (code = Some 255) then
    if killed p then (p, cleared ++ [Log Debug (tag p (message +:+ " (Forced)"))])
    else (p, cleared ++ [Log Error (tag p (message +:+ " (Unexpected)"))])
  else
    (p,
     cleared
     ++ [Log Error (tag p (message +:+ " (Error)")); StopStream (sessionId p)]
     ++ match callback p with
        | Some cb => if negb (started p) then [Callback cb (Some message)]
                     else [ForceStop (sessionId p)]
        | None => [ForceStop (sessionId p)]
        end).

(** What the child process can make the supervisor see. *)
Inductive ProcessEvent :=
  | StdoutData (data : string)
  | StderrLine (line : string)
  | ProcessError (message : string)
  | ProcessExit (code : option Z) (signal : option string).

Definition handle (now : Q) (ev : ProcessEvent) (p : FFmpegProcess)
    : FFmpegProcess * list Effect :=
  match ev with
  | StdoutData data => on_stdout now data p
  | StderrLine line => on_stderr_line line p
  | ProcessError message => on_error message p
  | ProcessExit code signal => on_exit code signal p
  end.

(** A run of events, all at the same instant [now]: the effects in order. *)
Fixpoint run (now : Q) (evs : list ProcessEvent) (p : FFmpegProcess)
    : FFmpegProcess * list Effect :=
  match evs with
  | [] => (p, [])
  | ev :: rest =>
      let '(p1, out1) := handle now ev p in
      let '(p2, out2) := run now rest p1 in
      (p2, out1 ++ out2)
  end.

(** The invocations of the ready callback among some effects. *)
Definition invocations (out : list Effect) : list (nat * option string) :=
  omap (fun e => match e with Callback cb err => Some (cb, err) | _ => None end) out.

End Ffmpeg.

(** ** Timers and the passing of time

    [setTimeout] puts a timer into a table of the world under a fresh
    handle, [clearTimeout] deletes it. When time passes, the timers that
    have come due fire one after the other, the earliest first and, among
    timers due at the same instant, the one armed first. *)

Module EventLoop.

Record Timer (A : Type) := { deadline : Q; action : A }.
Global Arguments deadline {A} _.
Global Arguments action {A} _.

Section Queue.
Context {A : Type}.

Definition sooner (c1 c2 : nat * Timer A) : bool :=
  negb (Qle_bool (deadline c2.2) (deadline c1.2))
  || (Qle_bool (deadline c1.2) (deadline c2.2) && (c1.1 <=? c2.1)%nat).

Definition pick (t : Q) (c : nat * Timer A) (best : option (nat * Timer A))
    : option (nat * Timer A) :=
  if Qle_bool (deadline c.2) t then
    match best with
    | Some b => if sooner c b then Some c else Some b
    | None => Some c
    end
  else best.

(** The next timer to fire among those due by [t]. *)
Definition due (t : Q) (ts : gmap nat (Timer A)) : option (nat * Timer A) :=
  foldr (pick t) None (map_to_list ts).
End Queue.

Section Loop.
Context {A W : Type}.
Variable timers : W → gmap nat (Timer A).
(** [fire h tm w]: the timer [tm] under handle [h] leaves the table, the
    clock moves to its deadline, its callback runs. *)
Variable fire : nat → Timer A → W → W.
Variable set_now : Q → W → W.

(** Fire what is due by [t], then let the clock show [t]. *)
Fixpoint run (fuel : nat) (t : Q) (w : W) : W :=
  match fuel with
  | O => w
  | S fuel' =>
      match due t (timers w) with
      | Some (h, tm) => run fuel' t (fire h tm w)
      | None => set_now t w
      end
  end.
End Loop.

(** The later of two instants. *)
Definition later (a b : Q) : Q := if Qle_bool a b then b else a.

End EventLoop.

(** ** The streaming delegate: sessions, sockets, processes *)

Module Stream.

Import EventLoop.

(** A [Buffer] is the string of its bytes. *)
Definition Buffer := string.

Record SessionInfo := {
  address : string;
  ipv6 : bool;
  videoPort : Z;
  videoReturnPort : Z;
  videoCryptoSuite : Z;
  videoSRTP : Buffer;
  videoSSRC : Z;
  audioPort : Z;
  audioReturnPort : Z;
  audioCryptoSuite : Z;
  audioSRTP : Buffer;
  audioSSRC : Z
}.

(** Every field of an [ActiveSession] is optional; a resource is named by
    its handle. *)
Record ActiveSession := {
  mainProcess : option nat;
  returnProcess : option nat;
  timeout : option nat;
  feedInterval : option nat;
  socket : option nat
}.

Definition emptySession : ActiveSession :=
  {| mainProcess := None; returnProcess := None; timeout := None;
     feedInterval := None; socket := None |}.

Definition set_mainProcess (v : option nat) (s : ActiveSession) : ActiveSession :=
  {| mainProcess := v; returnProcess := returnProcess s; timeout := timeout s;
     feedInterval := feedInterval s; socket := socket s |}.
Definition set_returnProcess (v : option nat) (s : ActiveSession) : ActiveSession :=
  {| mainProcess := mainProcess s; returnProcess := v; timeout := timeout s;
     feedInterval := feedInterval s; socket := socket s |}.
Definition set_timeout (v : option nat) (s : ActiveSession) : ActiveSession :=
  {| mainProcess := mainProcess s; returnProcess := returnProcess s; timeout := v;
     feedInterval := feedInterval s; socket := socket s |}.
Definition set_feedInterval (v : option nat) (s : ActiveSession) : ActiveSession :=
  {| mainProcess := mainProcess s; returnProcess := returnProcess s; timeout := timeout s;
     feedInterval := v; socket := socket s |}.
Definition set_socket (v : option nat) (s : ActiveSession) : ActiveSession :=
  {| mainProcess := mainProcess s; returnProcess := returnProcess s; timeout := timeout s;
     feedInterval := feedInterval s; socket := v |}.

(** The requests of the hub, with the fields the delegate reads. *)
Record VideoInfo := {
  v_width : Z;
  v_height : Z;
  v_fps : Z;
  v_max_bit_rate : Z;
  v_pt : Z;
  rtcp_interval : Q
}.

Record AudioInfo := {
  a_codec : string;
  a_sample_rate : Z;
  a_max_bit_rate : Z;
  a_channel : Z;
  a_pt : Z
}.

Record StartStreamRequest := {
  sessionID : string;
  video : VideoInfo;
  audio_info : AudioInfo
}.

Record Source := {
  port : Z;
  srtpCryptoSuite : Z;
  srtp_key : Buffer;
  srtp_salt : Buffer
}.

Record PrepareStreamRequest := {
  p_sessionID : string;
  targetAddress : string;
  addressVersion : string;
  p_video : Source;
  p_audio : Source
}.

Record ProvidedSource := {
  r_port : Z;
  r_ssrc : Z;
  r_srtp_key : Buffer;
  r_srtp_salt : Buffer
}.

Record PrepareStreamResponse := {
  resp_video : ProvidedSource;
  resp_audio : ProvidedSource
}.

(** What a timer does when it fires. *)
Inductive TimerAction :=
  | Inactivity (sessionID : string)
  | Kill (pid : nat).

(** A datagram socket, with what its two handlers close over: the session
    id and [rtcp_interval] of the request, and the [ActiveSession]. *)
Record Socket := {
  udp6 : bool;
  bound : option Z;
  running : bool;
  s_sessionID : string;
  s_session : nat;
  s_rtcp_interval : Q
}.

(** What the delegate does to the outside, oldest first. *)
Inductive Output :=
  | OLog (lvl : Level) (msg : string)
  | OLogRuntime (lvl : Level) (msg : string) (seconds : Q)
  | OStreamCallback (cb : nat) (err : option string)
  | OPrepareCallback (cb : nat) (response : PrepareStreamResponse)
  | OForceStop (sessionID : string)
  | OClearTimeout (h : nat)
  | OClearInterval (h : nat)
  | OSocketClose (k : nat)
  | OStdinEnd (pid : nat) (payload : string)
  | OStdinWrite (pid : nat) (payload : Buffer)
  | OStdinDestroy (pid : nat)
  | OKill (pid : nat)
  | OSpawn (pid : nat) (args : string)
  | ODownloadIdleImage
  | OUncaught (err : string).

Record World := {
  pendingSessions : gmap string SessionInfo;
  (** [ongoingSessions] maps a session id to a reference into [store] *)
  ongoingSessions : gmap string nat;
  store : gmap nat ActiveSession;
  timers : gmap nat (Timer TimerAction);
  (** the feed timers, each with the [ActiveSession] it closes over *)
  intervals : gmap nat nat;
  sockets : gmap nat Socket;
  processes : gmap nat Ffmpeg.FFmpegProcess;
  (** the next unused handle or reference *)
  next : nat;
  now : Q;
  visitorSnapshot : option Buffer;
  alternativeSnapshot : option Buffer;
  out : list Output
}.

Definition set_pendingSessions (v : gmap string SessionInfo) (w : World) : World :=
  {| pendingSessions := v; ongoingSessions := ongoingSessions w; store := store w;
     timers := timers w; intervals := intervals w; sockets := sockets w;
     processes := processes w; next := next w; now := now w;
     visitorSnapshot := visitorSnapshot w;
     alternativeSnapshot := alternativeSnapshot w; out := out w |}.
Definition set_ongoingSessions (v : gmap string nat) (w : World) : World :=
  {| pendingSessions := pendingSessions w; ongoingSessions := v; store := store w;
     timers := timers w; intervals := intervals w; sockets := sockets w;
     processes := processes w; next := next w; now := now w;
     visitorSnapshot := visitorSnapshot w;
     alternativeSnapshot := alternativeSnapshot w; out := out w |}.
Definition set_store (v : gmap nat ActiveSession) (w : World) : World :=
  {| pendingSessions := pendingSessions w; ongoingSessions := ongoingSessions w; store := v;
     timers := timers w; intervals := intervals w; sockets := sockets w;
     processes := processes w; next := next w; now := now w;
     visitorSnapshot := visitorSnapshot w;
     alternativeSnapshot := alternativeSnapshot w; out := out w |}.
Definition set_timers (v : gmap nat (Timer TimerAction)) (w : World) : World :=
  {| pendingSessions := pendingSessions w; ongoingSessions := ongoingSessions w;
     store := store w;
     timers := v; intervals := intervals w; sockets := sockets w;
     processes := processes w; next := next w; now := now w;
     visitorSnapshot := visitorSnapshot w;
     alternativeSnapshot := alternativeSnapshot w; out := out w |}.
Definition set_intervals (v : gmap nat nat) (w : World) : World :=
  {| pendingSessions := pendingSessions w; ongoingSessions := ongoingSessions w;
     store := store w;
     timers := timers w; intervals := v; sockets := sockets w;
     processes := processes w; next := next w; now := now w;
     visitorSnapshot := visitorSnapshot w;
     alternativeSnapshot := alternativeSnapshot w; out := out w |}.
Definition set_sockets (v : gmap nat Socket) (w : World) : World :=
  {| pendingSessions := pendingSessions w; ongoingSessions := ongoingSessions w;
     store := store w;
     timers := timers w; intervals := intervals w; sockets := v;
     processes := processes w; next := next w; now := now w;
     visitorSnapshot := visitorSnapshot w;
     alternativeSnapshot := alternativeSnapshot w; out := out w |}.
Definition set_processes (v : gmap nat Ffmpeg.FFmpegProcess) (w : World) : World :=
  {| pendingSessions := pendingSessions w; ongoingSessions := ongoingSessions w;
     store := store w;
     timers := timers w; intervals := intervals w; sockets := sockets w;
     processes := v; next := next w; now := now w;
     visitorSnapshot := visitorSnapshot w;
     alternativeSnapshot := alternativeSnapshot w; out := out w |}.
Definition set_next (v : nat) (w : World) : World :=
  {| pendingSessions := pendingSessions w; ongoingSessions := ongoingSessions w;
     store := store w;
     timers := timers w; intervals := intervals w; sockets := sockets w;
     processes := processes w; next := v; now := now w;
     visitorSnapshot := visitorSnapshot w;
     alternativeSnapshot := alternativeSnapshot w; out := out w |}.
Definition set_now (v : Q) (w : World) : World :=
  {| pendingSessions := pendingSessions w; ongoingSessions := ongoingSessions w;
     store := store w;
     timers := timers w; intervals := intervals w; sockets := sockets w;
     processes := processes w; next := next w; now := v;
     visitorSnapshot := visitorSnapshot w;
     alternativeSnapshot := alternativeSnapshot w; out := out w |}.
Definition set_out (v : list Output) (w : World) : World :=
  {| pendingSessions := pendingSessions w; ongoingSessions := ongoingSessions w;
     store := store w;
     timers := timers w; intervals := intervals w; sockets := sockets w;
     processes := processes w; next := next w; now := now w;
     visitorSnapshot := visitorSnapshot w;
     alternativeSnapshot := alternativeSnapshot w; out := v |}.

(** A delegate that has just been constructed, at instant [t]. *)
Definition initial (t : Q) : World :=
  {| pendingSessions := ∅; ongoingSessions := ∅; store := ∅; timers := ∅;
     intervals := ∅; sockets := ∅; processes := ∅; next := 0%nat; now := t;
     visitorSnapshot := None; alternativeSnapshot := None; out := [] |}.

(** *** Code that may throw *)

Definition M (A : Type) : Type := World → JS.outcome A * World.

Definition ret {A} (a : A) : M A := fun w => (JS.Returned a, w).
Definition throw {A} (err : string) : M A := fun w => (JS.Thrown err, w).
Definition bind {A B} (m : M A) (k : A → M B) : M B :=
  fun w =>
    match m w with
    | (JS.Returned a, w') => k a w'
    | (JS.Thrown err, w') => (JS.Thrown err, w')
    end.
Definition modify (f : World → World) : M unit := fun w => (JS.Returned tt, f w).
Definition gets {A} (f : World → A) : M A := fun w => (JS.Returned (f w), w).

Notation "'let!' x := m 'in' k" := (bind m (fun x => k))
  (at level 10, x name, m at level 100, k at level 200).
Notation "m >> k" := (bind m (fun _ => k))
  (at level 65, right associativity).

(** [try { body } catch(err) { handler }] *)
Definition try_catch (body : M unit) (handler : string → M unit) : M unit :=
  fun w =>
    match body w with
    | (JS.Thrown err, w') => handler err w'
    | done => done
    end.

(** [if(x) { ... }] and [x?.f()] on an optional handle. *)
Definition when_some {A} (x : option A) (k : A → M unit) : M unit :=
  match x with
  | Some a => k a
  | None => ret tt
  end.

(** Run a handler of the event loop; an exception that reaches the loop is
    recorded. *)
Definition exec (m : M unit) (w : World) : World :=
  match m w with
  | (JS.Returned _, w') => w'
  | (JS.Thrown err, w') => set_out (out w' ++ [OUncaught err]) w'
  end.

Definition emit (o : Output) : M unit := modify (fun w => set_out (out w ++ [o]) w).
Definition log (lvl : Level) (msg : string) : M unit := emit (OLog lvl msg).

(** A fresh handle or reference. *)
Definition fresh : M nat :=
  fun w => (JS.Returned (next w), set_next (S (next w)) w).

(** The [ActiveSession] behind a reference. *)
Definition deref (r : nat) (w : World) : ActiveSession :=
  default emptySession (store w !! r).

Definition update_session (r : nat) (f : ActiveSession → ActiveSession) : M unit :=
  modify (fun w => set_store (<[r := f (deref r w)]> (store w)) w).

(** [setTimeout(action, delay)] *)
Definition setTimeout (a : TimerAction) (delay : Q) : M nat :=
  let! h := fresh in
  modify (fun w =>
    set_timers (<[h := {| deadline := (now w + delay)%Q; action := a |}]> (timers w)) w) >>
  ret h.

(** [clearTimeout(h)] *)
Definition clearTimeout (h : nat) : M unit :=
  modify (fun w => set_timers (delete h (timers w)) w) >> emit (OClearTimeout h).

(** [clearInterval(h)] *)
Definition clearInterval (h : nat) : M unit :=
  modify (fun w => set_intervals (delete h (intervals w)) w) >> emit (OClearInterval h).

(** *** The argument strings of the transcoder *)

Definition base64Alphabet : string :=
  "ABCDEFGHIJKLMNOPQRSTUVWXYZabcdefghijklmnopqrstuvwxyz0123456789+/".

Definition base64Char (n : N) : ascii :=
  default "="%char (String.get (N.to_nat n) base64Alphabet).

Fixpoint base64Bytes (bs : list N) : list ascii :=
  match bs with
  | a :: b :: c :: rest =>
      let n := (a * 65536 + b * 256 + c)%N in
      base64Char (n / 262144) :: base64Char (n / 4096 mod 64)
      :: base64Char (n / 64 mod 64) :: base64Char (n mod 64) :: base64Bytes rest
  | [a; b] =>
      let n := (a * 65536 + b * 256)%N in
      [base64Char (n / 262144); base64Char (n / 4096 mod 64);
       base64Char (n / 64 mod 64); "="%char]
  | [a] =>
      let n := (a * 65536)%N in
      [base64Char (n / 262144); base64Char (n / 4096 mod 64); "="%char; "="%char]
  | [] => []
  end.

(** [buffer.toString("base64")] *)
Definition base64 (b : Buffer) : string :=
  string_of_list_ascii (base64Bytes (map N_of_ascii (list_ascii_of_string b))).

(** [n > 0 ? n : alt] inside a template string. *)
Definition orText (n : Z) (alt : string) : string :=
  if (0 <? n)%Z then JS.str n else alt.

Definition OPUS : string := "OPUS".
Definition AAC_ELD : string := "AAC-eld".

Definition CRLF : string := String "013" (String "010" EmptyString).

Section Arguments.
Variable cfg : VideoConfig.

Definition effectiveCodec : string := JS.or_else (codec cfg) "libx264".

Definition effectiveMtu : Z :=
  match packetSize cfg with
  | Some n => if (n =? 0)%Z then 1316 else n
  | None => 1316
  end.

Definition effectiveEncoderOptions : option string :=
  if negb (JS.truthy (encoderOptions cfg)) && String.eqb effectiveCodec "libx264"
  then Some "-preset ultrafast -tune zerolatency"%string
  else encoderOptions cfg.

(** The resolution, frame rate and bit rate of the stream; all of them
    are given up when the codec is ["copy"]. *)
Definition streamResolution (v : VideoInfo) : ResolutionInfo :=
  let planned :=
    Resolution.determineResolution cfg
      {| req_width := v_width v; req_height := v_height v |} false in
  if String.eqb effectiveCodec "copy" then
    {| width := 0; height := 0; res_videoFilter := None;
       snapshotFilter := snapshotFilter planned;
       resizeFilter := resizeFilter planned |}
  else planned.

Definition streamFps (v : VideoInfo) : Z :=
  if String.eqb effectiveCodec "copy" then 0 else v_fps v.

Definition streamBitrate (v : VideoInfo) : Z :=
  if String.eqb effectiveCodec "copy" then 0 else v_max_bit_rate v.

Definition videoArgs (request : StartStreamRequest) (sessionInfo : SessionInfo)
    : list string :=
  let v := video request in
  let fps := streamFps v in
  let videoBitrate := streamBitrate v in
  List.concat
    [["-i pipe:";
      if JS.truthy (mapVideo cfg) then "-map " +:+ default "" (mapVideo cfg)
      else "-an -sn -dn";
      "-codec:v " +:+ effectiveCodec;
      "-pix_fmt yuv420p";
      "-color_range mpeg"];
     if (0 <? fps)%Z then ["-r " +:+ JS.str fps] else [];
     ["-f rawvideo"];
     if JS.truthy effectiveEncoderOptions
     then [default "" effectiveEncoderOptions] else [];
     if JS.truthy (res_videoFilter (streamResolution v))
     then ["-filter:v " +:+ default "" (res_videoFilter (streamResolution v))]
     else [];
     if (0 <? videoBitrate)%Z then ["-b:v " +:+ JS.str videoBitrate +:+ "k"] else [];
     ["-payload_type " +:+ JS.str (v_pt v);
      "-ssrc " +:+ JS.str (videoSSRC sessionInfo);
      "-f rtp";
      "-srtp_out_suite AES_CM_128_HMAC_SHA1_80";
      "-srtp_out_params " +:+ base64 (videoSRTP sessionInfo);
      "srtp://" +:+ address sessionInfo +:+ ":" +:+ JS.str (videoPort sessionInfo)
        +:+ "?rtcpport=" +:+ JS.str (videoPort sessionInfo)
        +:+ "&pkt_size=" +:+ JS.str effectiveMtu]]%string.

(** The audio arguments, or [None] for a codec that is not supported. *)
Definition audioArgs (request : StartStreamRequest) (sessionInfo : SessionInfo)
    : option (list string) :=
  let a := audio_info request in
  if String.eqb (a_codec a) OPUS || String.eqb (a_codec a) AAC_ELD then
    Some
      (List.concat
         [[if JS.truthy (mapAudio cfg) then "-map " +:+ default "" (mapAudio cfg)
           else "-vn -sn -dn"];
          if String.eqb (a_codec a) OPUS
          then ["-codec:a libopus"; "-application lowdelay"]
          else ["-codec:a libfdk_aac"; "-profile:a aac_eld"];
          ["-flags +global_header";
           "-f null";
           "-ar " +:+ JS.str (a_sample_rate a) +:+ "k";
           "-b:a " +:+ JS.str (a_max_bit_rate a) +:+ "k";
           "-ac " +:+ JS.str (a_channel a);
           "-payload_type " +:+ JS.str (a_pt a);
           "-ssrc " +:+ JS.str (audioSSRC sessionInfo);
           "-f rtp";
           "-srtp_out_suite AES_CM_128_HMAC_SHA1_80";
           "-srtp_out_params " +:+ base64 (audioSRTP sessionInfo);
           "srtp://" +:+ address sessionInfo +:+ ":" +:+ JS.str (audioPort sessionInfo)
             +:+ "?rtcpport=" +:+ JS.str (audioPort sessionInfo)
             +:+ "&pkt_size=188"]])%string
  else None.

Definition streamArgs (request : StartStreamRequest) (sessionInfo : SessionInfo)
    : string :=
  JS.join " "
    (List.concat
       [videoArgs request sessionInfo;
        if audio cfg then default [] (audioArgs request sessionInfo) else [];
        ["-loglevel level"; "-progress pipe:1"]%string]).

Definition returnArgs : string :=
  JS.join " "
    ["-hide_banner"; "-protocol_whitelist pipe,udp,rtp,file,crypto"; "-f sdp";
     "-c:a libfdk_aac"; "-i pipe:"; default "" (returnAudioTarget cfg);
     "-loglevel level"]%string.

Definition sdpReturnAudio (sessionInfo : SessionInfo) : string :=
  let ipVer := (if ipv6 sessionInfo then "IP6" else "IP4")%string in
  (JS.join CRLF
     ["v=0";
      "o=- 0 0 IN " +:+ ipVer +:+ " " +:+ address sessionInfo;
      "s=Talk";
      "c=IN " +:+ ipVer +:+ " " +:+ address sessionInfo;
      "t=0 0";
      "m=audio " +:+ JS.str (audioReturnPort sessionInfo) +:+ " RTP/AVP 110";
      "b=AS:24";
      "a=rtpmap:110 MPEG4-GENERIC/16000/1";
      "a=rtcp-mux";
      "a=fmtp:100 profile-level-id=1;mode=AAC-hbr;sizelength=13;indexlength=3,indexdeltalength=3; config=F8F0212C00BC00";
      "a=crypto:1 AES_CM_128_HMAC_SHA1_80 inline:" +:+ base64 (audioSRTP sessionInfo)]
   +:+ CRLF)%string.
End Arguments.

(** *** The delegate *)

(** The releases of [stopStream] that can throw. *)
Inductive Release :=
  | SocketClose (k : nat)
  | StdinEnd (pid : nat).

Section Delegate.
(** [this.videoConfig] and [this.cameraName] *)
Variable cfg : VideoConfig.
Variable cameraName : string.
(** Which releases fail in which world, and with what error: the
    environment decides. *)
Variable fails : Release → World → option string.

Definition tag (text : string) : string := ("[" +:+ cameraName +:+ "] " +:+ text)%string.

Definition update_process (pid : nat)
    (f : Ffmpeg.FFmpegProcess → Ffmpeg.FFmpegProcess) : M unit :=
  modify (fun w => set_processes (alter f pid (processes w)) w).

(** [socket.close()]: throws on a socket that is not running. *)
Definition socket_close (k : nat) : M unit :=
  fun w =>
    match fails (SocketClose k) w with
    | Some err => throw err w
    | None =>
        match sockets w !! k with
        | Some s =>
            if running s then
              (modify (fun w =>
                 set_sockets
                   (<[k := {| udp6 := udp6 s; bound := bound s; running := false;
                              s_sessionID := s_sessionID s; s_session := s_session s;
                              s_rtcp_interval := s_rtcp_interval s |}]> (sockets w)) w)
               >> emit (OSocketClose k)) w
            else throw "Not running" w
        | None => throw "Not running" w
        end
    end.

(** [FFmpegProcess.stop()]: end the input, arm the 2-second kill timer. *)
Definition process_stop (pid : nat) : M unit :=
  (fun w =>
     match fails (StdinEnd pid) w with
     | Some err => throw err w
     | None => emit (OStdinEnd pid "") w
     end) >>
  let! h := setTimeout (Kill pid) 2000 in
  update_process pid (Ffmpeg.set_killTimeout (Some h)).

Definition stopStream (sessionId : string) : M unit :=
  let! session := gets (fun w => ongoingSessions w !! sessionId) in
  when_some session (fun r =>
    let! session := gets (deref r) in
    when_some (timeout session) clearTimeout >>
    when_some (feedInterval session) clearInterval >>
    try_catch (when_some (socket session) socket_close)
      (fun err => log Error (tag ("Error occurred closing socket: " +:+ err))) >>
    try_catch (when_some (mainProcess session) process_stop)
      (fun err =>
         log Error (tag ("Error occurred terminating main FFmpeg process: " +:+ err))) >>
    try_catch (when_some (returnProcess session) process_stop)
      (fun err =>
         log Error (tag ("Error occurred terminating two-way FFmpeg process: " +:+ err)))) >>
  modify (fun w => set_ongoingSessions (delete sessionId (ongoingSessions w)) w) >>
  log Info (tag "Stopped video stream").

(** [new FFmpegProcess(...)] *)
Definition newFFmpegProcess (name sessionId ffmpegArgs : string)
    (callback : option nat) : M nat :=
  log Debug ("Stream command: ffmpeg " +:+ ffmpegArgs) >>
  let! pid := fresh in
  emit (OSpawn pid ffmpegArgs) >>
  modify (fun w =>
    set_processes
      (<[pid := Ffmpeg.construct name sessionId ffmpegArgs callback (now w)]>
         (processes w)) w) >>
  ret pid.

Definition startStream (request : StartStreamRequest) (callback : nat) : M unit :=
  let! sessionInfo := gets (fun w => pendingSessions w !! sessionID request) in
  match sessionInfo with
  | Some sessionInfo =>
      let v := video request in
      let resolution := streamResolution cfg v in
      log Debug
        (tag ("Video stream requested: " +:+ JS.str (v_width v) +:+ " x "
              +:+ JS.str (v_height v) +:+ ", " +:+ JS.str (v_fps v) +:+ " fps, "
              +:+ JS.str (v_max_bit_rate v) +:+ " kbps")) >>
      log Info
        (tag ("Starting video stream: " +:+ orText (width resolution) "native"
              +:+ " x " +:+ orText (height resolution) "native" +:+ ", "
              +:+ orText (streamFps cfg v) "native" +:+ " fps, "
              +:+ orText (streamBitrate cfg v) "???" +:+ " kbps "
              +:+ (if audio cfg then "(" +:+ a_codec (audio_info request) +:+ ")"
                   else ""))) >>
      (if audio cfg && negb (bool_decide (is_Some (audioArgs cfg request sessionInfo)))
       then log Error
              (tag ("Unsupported audio codec requested: "
                    +:+ a_codec (audio_info request)))
       else ret tt) >>
      let ffmpegArgs := streamArgs cfg request sessionInfo in
      (* const activeSession = {} *)
      let! r := fresh in
      update_session r (fun _ => emptySession) >>
      (* createSocket, its two handlers, bind *)
      let! k := fresh in
      modify (fun w =>
        set_sockets
          (<[k := {| udp6 := ipv6 sessionInfo;
                     bound := Some (videoReturnPort sessionInfo);
                     running := true;
                     s_sessionID := sessionID request;
                     s_session := r;
                     s_rtcp_interval := rtcp_interval v |}]> (sockets w)) w) >>
      update_session r (set_socket (Some k)) >>
      let! pid := newFFmpegProcess cameraName (sessionID request) ffmpegArgs
                    (Some callback) in
      update_session r (set_mainProcess (Some pid)) >>
      (if JS.truthy (returnAudioTarget cfg) then
         let! pid2 := newFFmpegProcess (cameraName +:+ "] [Two-way")
                        (sessionID request) (returnArgs cfg) None in
         update_session r (set_returnProcess (Some pid2)) >>
         emit (OStdinEnd pid2 (sdpReturnAudio sessionInfo))
       else ret tt) >>
      (* setInterval: the feed timer *)
      let! h := fresh in
      modify (fun w => set_intervals (<[h := r]> (intervals w)) w) >>
      update_session r (set_feedInterval (Some h)) >>
      modify (fun w =>
        set_ongoingSessions (<[sessionID request := r]> (ongoingSessions w)) w) >>
      modify (fun w =>
        set_pendingSessions (delete (sessionID request) (pendingSessions w)) w)
  | None =>
      log Error (tag "Error finding session information") >>
      emit (OStreamCallback callback (Some "Error finding session information"%string))
  end.



(** [prepareStream], from the moment both ports have been picked: the
    two ports and the two synchronisation sources come from outside. *)
Definition prepareStream (request : PrepareStreamRequest)
    (videoReturnPort videoSSRC audioReturnPort audioSSRC : Z) (callback : nat)
    : M unit :=
  let sessionInfo :=
    {| address := targetAddress request;
       ipv6 := String.eqb (addressVersion request) "ipv6";
       videoPort := port (p_video request);
       videoReturnPort := videoReturnPort;
       videoCryptoSuite := srtpCryptoSuite (p_video request);
       videoSRTP := (srtp_key (p_video request) +:+ srtp_salt (p_video request))%string;
       videoSSRC := videoSSRC;
       audioPort := port (p_audio request);
       audioReturnPort := audioReturnPort;
       audioCryptoSuite := srtpCryptoSuite (p_audio request);
       audioSRTP := (srtp_key (p_audio request) +:+ srtp_salt (p_audio request))%string;
       audioSSRC := audioSSRC |} in
  let response :=
    {| resp_video := {| r_port := videoReturnPort; r_ssrc := videoSSRC;
                        r_srtp_key := srtp_key (p_video request);
                        r_srtp_salt := srtp_salt (p_video request) |};
       resp_audio := {| r_port := audioReturnPort; r_ssrc := audioSSRC;
                        r_srtp_key := srtp_key (p_audio request);
                        r_srtp_salt := srtp_salt (p_audio request) |} |} in
  modify (fun w =>
    set_pendingSessions (<[p_sessionID request := sessionInfo]> (pendingSessions w)) w) >>
  emit (OPrepareCallback callback response).

(** *** The handlers that the event loop runs *)



(** The callbacks of the two kinds of timer. *)
Definition timer_callback (a : TimerAction) : M unit :=
  match a with
  | Inactivity sessionID =>
      log Info (tag "Device appears to be inactive. Stopping stream.") >>
      emit (OForceStop sessionID) >>
      stopStream sessionID
  | Kill pid =>
      emit (OStdinDestroy pid) >>
      emit (OKill pid) >>
      update_process pid (Ffmpeg.set_killed true)
  end.





(** *** Time *)

Definition fire (h : nat) (tm : Timer TimerAction) (w : World) : World :=
  exec (timer_callback (action tm))
    (set_now (later (now w) (deadline tm)) (set_timers (delete h (timers w)) w)).

(** Firing an inactivity timer arms at most two kill timers, and firing a
    kill timer arms none: three steps for each timer are enough. *)
Definition budget (w : World) : nat := S (3 * size (timers w)).

(** [d] milliseconds pass and nothing else happens. *)
Definition elapse (d : Q) (w : World) : World :=
  EventLoop.run timers fire set_now (budget w) (now w + d)%Q w.

End Delegate.

(** *** What can happen to a delegate *)




(** *** Vocabulary of the properties *)

(** No session id is pending and active at once. *)
Definition exclusive (w : World) : Prop :=
  ∀ sid, pendingSessions w !! sid = None ∨ ongoingSessions w !! sid = None.

(** What the release of a session's socket puts out: nothing when the
    session has no socket, the close, or the log line of the error that
    the close threw. *)
Inductive released_socket (cameraName : string) : option nat → list Output → Prop :=
  | no_socket : released_socket cameraName None []
  | socket_closed k : released_socket cameraName (Some k) [OSocketClose k]
  | socket_failed k err :
      released_socket cameraName (Some k)
        [OLog Error (tag cameraName ("Error occurred closing socket: " +:+ err))].

(** The same for a supervisor; [which] is "main" or "two-way". *)
Inductive released_process (cameraName which : string)
    : option nat → list Output → Prop :=
  | no_process : released_process cameraName which None []
  | process_stopped pid :
      released_process cameraName which (Some pid) [OStdinEnd pid ""]
  | process_failed pid err :
      released_process cameraName which (Some pid)
        [OLog Error
           (tag cameraName
              ("Error occurred terminating " +:+ which +:+ " FFmpeg process: " +:+ err))].

(** The two timers of a session, cleared. *)
Definition cleared_timers (s : ActiveSession) : list Output :=
  match timeout s with Some h => [OClearTimeout h] | None => [] end
  ++ match feedInterval s with Some h => [OClearInterval h] | None => [] end.



(** How many steps of the event loop a timer can still cause. *)
Definition weight (a : TimerAction) : nat :=
  match a with
  | Inactivity _ => 3
  | Kill _ => 1
  end.

Definition load (ts : gmap nat (Timer TimerAction)) : nat :=
  sum_list_with (fun c => weight (action c.2)) (map_to_list ts).

(** The sockets of [w'] are sockets of [w], each with the session and the
    session id its handlers hold. *)
Definition same_owners (w w' : World) : Prop :=
  ∀ k s', sockets w' !! k = Some s' →
          ∃ s, sockets w !! k = Some s
               ∧ s_session s' = s_session s ∧ s_sessionID s' = s_sessionID s.

(** The footprint of a step of [stopStream]: the step leaves the session
    maps and the store alone, only adds [new] to the output, arms timers
    under fresh handles only and of a load of at most [k], and clears no
    timer but those in [X]. *)
Definition footprint (X : nat → Prop) (k : nat) (new : list Output)
    (w w' : World) : Prop :=
  pendingSessions w' = pendingSessions w
  ∧ ongoingSessions w' = ongoingSessions w
  ∧ store w' = store w
  ∧ now w' = now w
  ∧ (next w ≤ next w')%nat
  ∧ out w' = out w ++ new
  ∧ (load (timers w') ≤ load (timers w) + k)%nat
  ∧ (∀ h, (h < next w)%nat → ¬ X h → timers w' !! h = timers w !! h)
  ∧ same_owners w w'.


End Stream.

(** ** The snapshot pipeline of the delegate *)

Module Snapshot.

Import EventLoop.

Definition Buffer := string.

Record SnapshotRequest := { width_of : Z; height_of : Z }.

(** The rest of [handleSnapshotRequest] after its first [await]: the
    caller's callback, the planned resolution and the [cachedSnapshot]
    flag. *)
Record Waiter := {
  w_callback : nat;
  w_resolution : ResolutionInfo;
  w_cached : bool
}.

(** A [Promise<Buffer>]: not yet settled, or resolved with a buffer, or
    rejected with a reason; and who awaits it. *)
Record Promise := {
  settled : option (JS.outcome Buffer);
  waiters : list Waiter
}.

(** The transcoder run that [fetchSnapshot] spawns. *)
Record Fetch := {
  f_promise : nat;
  f_filter : option string;
  f_input : Buffer;
  snapshotBuffer : Buffer;
  f_startTime : Q;
  f_closed : bool
}.

(** The transcoder run that [resizeSnapshot] spawns, with the callback of
    the request that waits for it. *)
Record Resize := {
  z_callback : nat;
  z_filter : option string;
  z_input : Buffer;
  resizeBuffer : Buffer;
  z_settled : bool
}.

(** A download of the idle image by [createAlternativeSnapshot], with the
    fetch that waits for it, if one does. *)
Record Download := {
  d_fetch : option (nat * option string)
}.

Inductive TimerAction := ExpireSnapshot.

Inductive Output :=
  | OLog (lvl : Level) (msg : string)
  | OLogRuntime (lvl : Level) (msg : string) (seconds : Q)
  | OSpawnFetch (f : nat) (args : string) (input : Buffer)
  | OSpawnResize (z : nat) (args : string) (input : Buffer)
  | OHttpGet (d : nat)
    (** [callback(undefined, image)] or [callback()] *)
  | OSnapshotCallback (cb : nat) (image : option Buffer).

Record World := {
  snapshotPromise : option nat;
  alternativeSnapshot : option Buffer;
  visitorSnapshot : option Buffer;
  promises : gmap nat Promise;
  fetches : gmap nat Fetch;
  resizes : gmap nat Resize;
  downloads : gmap nat Download;
  timers : gmap nat (Timer TimerAction);
  next : nat;
  now : Q;
  out : list Output
}.

Definition set_snapshotPromise (v : option nat) (w : World) : World :=
  {| snapshotPromise := v; alternativeSnapshot := alternativeSnapshot w;
     visitorSnapshot := visitorSnapshot w; promises := promises w;
     fetches := fetches w; resizes := resizes w; downloads := downloads w;
     timers := timers w; next := next w; now := now w; out := out w |}.
Definition set_alternativeSnapshot (v : option Buffer) (w : World) : World :=
  {| snapshotPromise := snapshotPromise w; alternativeSnapshot := v;
     visitorSnapshot := visitorSnapshot w; promises := promises w;
     fetches := fetches w; resizes := resizes w; downloads := downloads w;
     timers := timers w; next := next w; now := now w; out := out w |}.
Definition set_visitorSnapshot (v : option Buffer) (w : World) : World :=
  {| snapshotPromise := snapshotPromise w; alternativeSnapshot := alternativeSnapshot w;
     visitorSnapshot := v; promises := promises w;
     fetches := fetches w; resizes := resizes w; downloads := downloads w;
     timers := timers w; next := next w; now := now w; out := out w |}.
Definition set_promises (v : gmap nat Promise) (w : World) : World :=
  {| snapshotPromise := snapshotPromise w; alternativeSnapshot := alternativeSnapshot w;
     visitorSnapshot := visitorSnapshot w; promises := v;
     fetches := fetches w; resizes := resizes w; downloads := downloads w;
     timers := timers w; next := next w; now := now w; out := out w |}.
Definition set_fetches (v : gmap nat Fetch) (w : World) : World :=
  {| snapshotPromise := snapshotPromise w; alternativeSnapshot := alternativeSnapshot w;
     visitorSnapshot := visitorSnapshot w; promises := promises w;
     fetches := v; resizes := resizes w; downloads := downloads w;
     timers := timers w; next := next w; now := now w; out := out w |}.
Definition set_resizes (v : gmap nat Resize) (w : World) : World :=
  {| snapshotPromise := snapshotPromise w; alternativeSnapshot := alternativeSnapshot w;
     visitorSnapshot := visitorSnapshot w; promises := promises w;
     fetches := fetches w; resizes := v; downloads := downloads w;
     timers := timers w; next := next w; now := now w; out := out w |}.
Definition set_downloads (v : gmap nat Download) (w : World) : World :=
  {| snapshotPromise := snapshotPromise w; alternativeSnapshot := alternativeSnapshot w;
     visitorSnapshot := visitorSnapshot w; promises := promises w;
     fetches := fetches w; resizes := resizes w; downloads := v;
     timers := timers w; next := next w; now := now w; out := out w |}.
Definition set_timers (v : gmap nat (Timer TimerAction)) (w : World) : World :=
  {| snapshotPromise := snapshotPromise w; alternativeSnapshot := alternativeSnapshot w;
     visitorSnapshot := visitorSnapshot w; promises := promises w;
     fetches := fetches w; resizes := resizes w; downloads := downloads w;
     timers := v; next := next w; now := now w; out := out w |}.
Definition set_next (v : nat) (w : World) : World :=
  {| snapshotPromise := snapshotPromise w; alternativeSnapshot := alternativeSnapshot w;
     visitorSnapshot := visitorSnapshot w; promises := promises w;
     fetches := fetches w; resizes := resizes w; downloads := downloads w;
     timers := timers w; next := v; now := now w; out := out w |}.
Definition set_now (v : Q) (w : World) : World :=
  {| snapshotPromise := snapshotPromise w; alternativeSnapshot := alternativeSnapshot w;
     visitorSnapshot := visitorSnapshot w; promises := promises w;
     fetches := fetches w; resizes := resizes w; downloads := downloads w;
     timers := timers w; next := next w; now := v; out := out w |}.
Definition set_out (v : list Output) (w : World) : World :=
  {| snapshotPromise := snapshotPromise w; alternativeSnapshot := alternativeSnapshot w;
     visitorSnapshot := visitorSnapshot w; promises := promises w;
     fetches := fetches w; resizes := resizes w; downloads := downloads w;
     timers := timers w; next := next w; now := now w; out := v |}.

Definition emit (o : Output) (w : World) : World := set_out (out w ++ [o]) w.
Definition log (lvl : Level) (msg : string) (w : World) : World := emit (OLog lvl msg) w.

Section Delegate.
Variable cfg : VideoConfig.
Variable cameraName : string.

Definition tag (text : string) : string := ("[" +:+ cameraName +:+ "] " +:+ text)%string.

(** [resizeSnapshot(snapshot, resizeFilter)] followed by
    [callback(undefined, resized)]: the spawn; the callback waits for the
    run to close. *)
Definition resizeSnapshot (snapshot : Buffer) (resizeFilter : option string)
    (callback : nat) (w : World) : World :=
  let ffmpegArgs :=
    JS.join " "
      (List.concat
         [["-i pipe:"; "-frames:v 1"];
          if JS.truthy resizeFilter then ["-filter:v " +:+ default "" resizeFilter]
          else [];
          ["-f image2 -"]])%string in
  let z := next w in
  let w := set_next (S z) w in
  let w := log Debug (tag ("Resize command: ffmpeg " +:+ ffmpegArgs)) w in
  let w := emit (OSpawnResize z ffmpegArgs snapshot) w in
  set_resizes
    (<[z := {| z_callback := callback; z_filter := resizeFilter; z_input := snapshot;
               resizeBuffer := ""; z_settled := false |}]> (resizes w)) w.

(** What [handleSnapshotRequest] does once the promise it awaits is
    settled. *)
Definition resume (result : JS.outcome Buffer) (k : Waiter) (w : World) : World :=
  match result with
  | JS.Returned snapshot =>
      let r := w_resolution k in
      let w :=
        log Debug
          (tag ("Sending snapshot: " +:+ Stream.orText (width r) "native" +:+ " x "
                +:+ Stream.orText (height r) "native" +:+ " "
                +:+ (if w_cached k then " (cached)" else ""))) w in
      resizeSnapshot snapshot (resizeFilter r) (w_callback k) w
  | JS.Thrown err =>
      emit (OSnapshotCallback (w_callback k) None) (log Error err w)
  end.

(** [resolve(v)] or [reject(e)]: the first one settles the promise and
    lets those who await it go on, in the order they came. *)
Definition settle (p : nat) (result : JS.outcome Buffer) (w : World) : World :=
  match promises w !! p with
  | Some pr =>
      match settled pr with
      | Some _ => w
      | None =>
          let w :=
            set_promises
              (<[p := {| settled := Some result; waiters := [] |}]> (promises w)) w in
          foldl (fun w k => resume result k w) w (waiters pr)
      end
  | None => w
  end.

(** The part of the executor of [fetchSnapshot] that comes once the
    source image is at hand. *)
Definition spawnFetch (p : nat) (snapshotFilter : option string) (snapshot : Buffer)
    (w : World) : World :=
  let ffmpegArgs :=
    JS.join " "
      (List.concat
         [["-i pipe:"; "-frames:v 1"];
          if JS.truthy snapshotFilter then ["-filter:v " +:+ default "" snapshotFilter]
          else [];
          ["-f image2 -"; "-hide_banner"; "-loglevel error"]])%string in
  let f := next w in
  let w := set_next (S f) w in
  let w := log Debug (tag ("Snapshot command: ffmpeg " +:+ ffmpegArgs)) w in
  let w := emit (OSpawnFetch f ffmpegArgs snapshot) w in
  set_fetches
    (<[f := {| f_promise := p; f_filter := snapshotFilter; f_input := snapshot;
               snapshotBuffer := ""; f_startTime := now w; f_closed := false |}]>
       (fetches w)) w.

(** [createAlternativeSnapshot()] when the idle image is not there yet:
    the download starts, and who waits for it is remembered. *)
Definition startDownload (waiting : option (nat * option string)) (w : World) : World :=
  let d := next w in
  let w := set_next (S d) w in
  let w := log Debug (tag "Creating alternative snapshot buffer") w in
  let w := emit (OHttpGet d) w in
  set_downloads (<[d := {| d_fetch := waiting |}]> (downloads w)) w.

(** [fetchSnapshot(snapshotFilter)]: a new promise takes the slot. *)
Definition fetchSnapshot (snapshotFilter : option string) (w : World) : nat * World :=
  let p := next w in
  let w := set_next (S p) w in
  let w := set_promises (<[p := {| settled := None; waiters := [] |}]> (promises w)) w in
  let w :=
    match visitorSnapshot w with
    | Some snapshot => spawnFetch p snapshotFilter snapshot w
    | None =>
        match alternativeSnapshot w with
        | Some snapshot => spawnFetch p snapshotFilter snapshot w
        | None => startDownload (Some (p, snapshotFilter)) w
        end
    end in
  (p, set_snapshotPromise (Some p) w).

(** [await promise] in [handleSnapshotRequest]. *)
Definition await (p : nat) (k : Waiter) (w : World) : World :=
  match promises w !! p with
  | Some pr =>
      match settled pr with
      | Some result => resume result k w
      | None =>
          set_promises
            (<[p := {| settled := None; waiters := waiters pr ++ [k] |}]> (promises w)) w
      end
  | None => w
  end.

Definition handleSnapshotRequest (request : SnapshotRequest) (callback : nat)
    (w : World) : World :=
  let resolution :=
    Resolution.determineResolution cfg
      {| req_width := width_of request; req_height := height_of request |} true in
  let cachedSnapshot := bool_decide (is_Some (snapshotPromise w)) in
  let w :=
    log Debug
      (tag ("Snapshot requested: " +:+ JS.str (width_of request) +:+ " x "
            +:+ JS.str (height_of request))) w in
  let '(p, w) :=
    match snapshotPromise w with
    | Some p => (p, w)
    | None => fetchSnapshot (snapshotFilter resolution) w
    end in
  await p {| w_callback := callback; w_resolution := resolution;
             w_cached := cachedSnapshot |} w.

(** *** The events of the fetch run *)

Definition update_fetch (f : nat) (g : Fetch → Fetch) (w : World) : World :=
  set_fetches (alter g f (fetches w)) w.

Definition fetch_stdout (f : nat) (data : Buffer) (w : World) : World :=
  update_fetch f (fun x =>
    {| f_promise := f_promise x; f_filter := f_filter x; f_input := f_input x;
       snapshotBuffer := (snapshotBuffer x +:+ data)%string;
       f_startTime := f_startTime x; f_closed := f_closed x |}) w.

Definition fetch_error (f : nat) (message : string) (w : World) : World :=
  match fetches w !! f with
  | Some x => settle (f_promise x) (JS.Thrown ("FFmpeg process creation failed: " +:+ message)) w
  | None => w
  end.

Definition fetch_stderr (f : nat) (data : string) (w : World) : World :=
  match fetches w !! f with
  | Some _ =>
      foldl (fun w line => if String.eqb line "" then w else log Error line w) w
            (JS.split "010" data)
  | None => w
  end.

(** The ["close"] handler. The promise is settled first; its waiters go
    on when the handler has returned. *)
Definition fetch_close (f : nat) (w : World) : World :=
  match fetches w !! f with
  | Some x =>
      if f_closed x then w
      else
        let w := update_fetch f (fun x =>
          {| f_promise := f_promise x; f_filter := f_filter x; f_input := f_input x;
             snapshotBuffer := snapshotBuffer x;
             f_startTime := f_startTime x; f_closed := true |}) w in
        let result :=
          if String.eqb (snapshotBuffer x) "" then JS.Thrown "Failed to fetch snapshot"%string
          else JS.Returned (snapshotBuffer x) in
        (* setTimeout(() => { this.snapshotPromise = undefined }, 3 * 1000) *)
        let h := next w in
        let w := set_next (S h) w in
        let w :=
          set_timers
            (<[h := {| deadline := (now w + 3 * 1000)%Q; action := ExpireSnapshot |}]>
               (timers w)) w in
        let runtime := ((now w - f_startTime x) / 1000)%Q in
        let message := tag "Fetching snapshot took ${runtime} seconds." in
        let w :=
          if negb (Qle_bool 5 runtime) then emit (OLogRuntime Debug message runtime) w
          else if negb (Qle_bool 22 runtime) then emit (OLogRuntime Warn message runtime) w
          else
            emit (OLogRuntime Error
                    (message +:+ " The request has timed out and the snapshot has not been refreshed in HomeKit.")
                    runtime) w in
        settle (f_promise x) result w
  | None => w
  end.

(** *** The events of a resize run *)

Definition resize_stdout (z : nat) (data : Buffer) (w : World) : World :=
  set_resizes
    (alter (fun x =>
       {| z_callback := z_callback x; z_filter := z_filter x; z_input := z_input x;
          resizeBuffer := (resizeBuffer x +:+ data)%string;
          z_settled := z_settled x |}) z (resizes w)) w.

Definition finish_resize (z : nat) (x : Resize) (w : World) : World :=
  set_resizes
    (<[z := {| z_callback := z_callback x; z_filter := z_filter x; z_input := z_input x;
               resizeBuffer := resizeBuffer x; z_settled := true |}]> (resizes w)) w.

Definition resize_error (z : nat) (message : string) (w : World) : World :=
  match resizes w !! z with
  | Some x =>
      if z_settled x then w
      else
        emit (OSnapshotCallback (z_callback x) None)
          (log Error ("FFmpeg process creation failed: " +:+ message)
             (finish_resize z x w))
  | None => w
  end.

Definition resize_close (z : nat) (w : World) : World :=
  match resizes w !! z with
  | Some x =>
      if z_settled x then w
      else emit (OSnapshotCallback (z_callback x) (Some (resizeBuffer x)))
             (finish_resize z x w)
  | None => w
  end.

(** *** The idle image arrives *)

Definition download_done (d : nat) (data : Buffer) (w : World) : World :=
  match downloads w !! d with
  | Some x =>
      let w := set_downloads (delete d (downloads w)) w in
      let w := set_alternativeSnapshot (Some data) w in
      match d_fetch x with
      | Some (p, snapshotFilter) => spawnFetch p snapshotFilter data w
      | None => w
      end
  | None => w
  end.

(** *** Time *)

Definition timer_callback (a : TimerAction) (w : World) : World :=
  match a with
  | ExpireSnapshot => set_snapshotPromise None w
  end.

Definition fire (h : nat) (tm : Timer TimerAction) (w : World) : World :=
  timer_callback (action tm)
    (set_now (later (now w) (deadline tm)) (set_timers (delete h (timers w)) w)).

Definition budget (w : World) : nat := S (size (timers w)).

Definition elapse (d : Q) (w : World) : World :=
  EventLoop.run timers fire set_now (budget w) (now w + d)%Q w.

End Delegate.

(** *** Vocabulary of the properties *)

(** The image a fetch would start from: the visitor's snapshot, else the
    idle image if it has been downloaded. *)
Definition currentImage (w : World) : option Buffer :=
  match visitorSnapshot w with
  | Some b => Some b
  | None => alternativeSnapshot w
  end.

(** The fetch run with handle [f], just spawned at instant [t] for
    promise [p]. *)
Definition newFetch (p : nat) (snapshotFilter : option string) (image : Buffer) (t : Q)
    : Fetch :=
  {| f_promise := p; f_filter := snapshotFilter; f_input := image;
     snapshotBuffer := ""; f_startTime := t; f_closed := false |}.

(** The resize run just spawned for the request with callback [cb] and
    resolution [r], on the image [snapshot]. *)
Definition newResize (cb : nat) (r : ResolutionInfo) (snapshot : Buffer) : Resize :=
  {| z_callback := cb; z_filter := resizeFilter r; z_input := snapshot;
     resizeBuffer := ""; z_settled := false |}.

(** The resolution planned for a snapshot request. *)
Definition planned (cfg : VideoConfig) (request : SnapshotRequest) : ResolutionInfo :=
  Resolution.determineResolution cfg
    {| req_width := width_of request; req_height := height_of request |} true.

End Snapshot.

(** ** The camera accessories: visitor events and the motion timer *)

Module Motion.

Import EventLoop.

Definition Buffer := string.

(** The values of [CameraLocation]. *)
Definition FRONT_DOOR : string := "door_record_duringlist".
Definition COMMUNAL_ENTRANCE : string := "lobby_record_duringlist".

Record VisitorOnCameraInfo := {
  index : Z;
  cameraLocation : string;
  date : string;
  mediaType : string;
  isNew : bool;
  snapshot : option Buffer
}.

(** [CameraAccessoryInterface]: the context of an accessory. *)
Record Context := {
  deviceID : string;
  displayName : string;
  init : bool;
  c_cameraLocation : string;
  motionTimer : option nat;
  motionOnCamera : bool;
  visitorInfo : option VisitorOnCameraInfo
}.

Record CameraDevice := {
  dev_cameraLocation : string;
  dev_deviceID : string;
  dev_displayName : string
}.

Definition CAMERA_DEVICES : list CameraDevice :=
  [ {| dev_cameraLocation := FRONT_DOOR; dev_deviceID := "FD-CAM0";
       dev_displayName := "세대현관" |};
    {| dev_cameraLocation := COMMUNAL_ENTRANCE; dev_deviceID := "CE-CAM0";
       dev_displayName := "공동현관" |} ].


(** The callback of a motion timer closes over its accessory. *)
Inductive TimerAction := MotionTimeout (deviceID : string).

Inductive Output :=
  | OLog (lvl : Level) (msg : string)
  | OClearTimeout (h : nat)
    (** [service.setCharacteristic(MotionDetected, value)] *)
  | OSetMotionDetected (deviceID : string) (value : bool)
    (** the answer to a read of [MotionDetected] *)
  | OMotionDetected (deviceID : string) (value : bool).

Record World := {
  (** the contexts of the registered accessories, by device id *)
  accessories : gmap string Context;
  timers : gmap nat (Timer TimerAction);
  next : nat;
  now : Q;
  out : list Output
}.

Definition set_accessories (v : gmap string Context) (w : World) : World :=
  {| accessories := v; timers := timers w; next := next w; now := now w; out := out w |}.
Definition set_timers (v : gmap nat (Timer TimerAction)) (w : World) : World :=
  {| accessories := accessories w; timers := v; next := next w; now := now w; out := out w |}.
Definition set_next (v : nat) (w : World) : World :=
  {| accessories := accessories w; timers := timers w; next := v; now := now w; out := out w |}.
Definition set_now (v : Q) (w : World) : World :=
  {| accessories := accessories w; timers := timers w; next := next w; now := v; out := out w |}.
Definition set_out (v : list Output) (w : World) : World :=
  {| accessories := accessories w; timers := timers w; next := next w; now := now w; out := v |}.

Definition emit (o : Output) (w : World) : World := set_out (out w ++ [o]) w.
Definition log (lvl : Level) (msg : string) (w : World) : World := emit (OLog lvl msg) w.

Definition set_motion (timer : option nat) (motion : bool)
    (info : option VisitorOnCameraInfo) (c : Context) : Context :=
  {| deviceID := deviceID c; displayName := displayName c; init := init c;
     c_cameraLocation := c_cameraLocation c; motionTimer := timer;
     motionOnCamera := motion; visitorInfo := info |}.


(** [registerAccessories]: one accessory for each camera device. *)
Definition registerAccessories (w : World) : World :=
  foldl (fun w d =>
           set_accessories
             (<[dev_deviceID d :=
                  {| deviceID := dev_deviceID d; displayName := dev_displayName d;
                     init := false; c_cameraLocation := dev_cameraLocation d;
                     motionTimer := None; motionOnCamera := false;
                     visitorInfo := None |}]> (accessories w)) w)
        w CAMERA_DEVICES.

Definition initial (t : Q) : World :=
  registerAccessories
    {| accessories := ∅; timers := ∅; next := 0%nat; now := t; out := [] |}.


Definition clearTimeout (h : nat) (w : World) : World :=
  emit (OClearTimeout h) (set_timers (delete h (timers w)) w).

(** [refreshSensors] *)
Definition refreshSensors (dev : string) (w : World) : World :=
  match accessories w !! dev with
  | Some c => emit (OSetMotionDetected dev (motionOnCamera c)) w
  | None => w
  end.


(** The callback that [createMotionTimer] hands to [setTimeout]. *)
Definition timer_callback (a : TimerAction) (w : World) : World :=
  match a with
  | MotionTimeout dev =>
      let w := log Debug "Invalidating the motion detector timer" w in
      match accessories w !! dev with
      | Some context =>
          let w :=
            match motionTimer context with
            | Some h => clearTimeout h w
            | None => w
            end in
          let w :=
            set_accessories (<[dev := set_motion None false None context]> (accessories w)) w in
          refreshSensors dev w
      | None => w
      end
  end.




(** A read of the [MotionDetected] characteristic. *)
Definition motionDetected (dev : string) (w : World) : option bool :=
  motionOnCamera <$> accessories w !! dev.

Definition read (dev : string) (w : World) : World :=
  match motionDetected dev w with
  | Some v => emit (OMotionDetected dev v) w
  | None => w
  end.

(** The shutdown handler of the accessory's streaming delegate. *)
Definition shutdown (dev : string) (w : World) : World :=
  match accessories w !! dev with
  | Some context =>
      let w :=
        match motionTimer context with
        | Some h => clearTimeout h w
        | None => w
        end in
      set_accessories
        (<[dev := set_motion None (motionOnCamera context) None context]> (accessories w)) w
  | None => w
  end.

(** *** Time *)

Definition fire (h : nat) (tm : Timer TimerAction) (w : World) : World :=
  timer_callback (action tm)
    (set_now (later (now w) (deadline tm)) (set_timers (delete h (timers w)) w)).

Definition budget (w : World) : nat := S (size (timers w)).

Definition elapse (d : Q) (w : World) : World :=
  EventLoop.run timers fire set_now (budget w) (now w + d)%Q w.

(** *** Vocabulary of the properties *)

(** The motion state of the accessory is cleared: no motion, no visitor
    snapshot, no timer. *)
Definition cleared (dev : string) (w : World) : Prop :=
  ∃ c, accessories w !! dev = Some c
       ∧ motionOnCamera c = false ∧ visitorInfo c = None ∧ motionTimer c = None.






End Motion.

(** ** Sample inputs *)

Module Sample.

Import Stream.

Definition source : Source :=
  {| port := 50000; srtpCryptoSuite := 0;
     srtp_key := "0123456789abcdef"; srtp_salt := "0123456789abcd" |}.

Definition prepareRequest : PrepareStreamRequest :=
  {| p_sessionID := "s1"; targetAddress := "192.168.0.7"; addressVersion := "ipv4";
     p_video := source; p_audio := source |}.

Definition startRequest : StartStreamRequest :=
  {| sessionID := "s1";
     video := {| v_width := 1920; v_height := 1080; v_fps := 30;
                 v_max_bit_rate := 299; v_pt := 99; rtcp_interval := 1 # 2 |};
     audio_info := {| a_codec := AAC_ELD; a_sample_rate := 16; a_max_bit_rate := 24;
                      a_channel := 1; a_pt := 110 |} |}.

(** No release fails. *)
Definition reliable : Release → World → option string := fun _ _ => None.


(** A delegate after [prepareStream] for session "s1". *)
Definition prepared : World :=
  exec (prepareStream prepareRequest 60000 1111 60002 2222 1) (initial 0).

(** The same after [startStream] for "s1". *)
Definition streaming : World :=
  exec (startStream videoConfig "cam" startRequest 2) prepared.

(** The hub prepares "s1" once more while it streams. *)
Definition preparedAgain : World :=
  exec (prepareStream prepareRequest 60004 3333 60006 4444 3) streaming.

(** The delegate's snapshot pipeline at rest, the idle image loaded. *)
Definition idle : Snapshot.World :=
  {| Snapshot.snapshotPromise := None;
     Snapshot.alternativeSnapshot := Some "idle image"%string;
     Snapshot.visitorSnapshot := None;
     Snapshot.promises := ∅; Snapshot.fetches := ∅; Snapshot.resizes := ∅;
     Snapshot.downloads := ∅; Snapshot.timers := ∅;
     Snapshot.next := 0%nat; Snapshot.now := 0; Snapshot.out := [] |}.

(** The fixed configuration, with a video filter. *)
Definition flipped : VideoConfig :=
  {| maxStreams := Some 2; maxWidth := Some 1280; maxHeight := Some 720;
     codec := Some "libx264"%string; packetSize := Some 1316; forceMax := true;
     videoFilter := Some "hflip"%string; encoderOptions := None; mapVideo := None;
     mapAudio := None; audio := false; returnAudioTarget := None |}.

Definition small : Snapshot.SnapshotRequest :=
  {| Snapshot.width_of := 640; Snapshot.height_of := 480 |}.
Definition large : Snapshot.SnapshotRequest :=
  {| Snapshot.width_of := 1920; Snapshot.height_of := 1080 |}.


End Sample.

Section QueueFacts.
Context {A : Type}.
Import EventLoop.





Lemma due_empty (t : Q) : due t (∅ : gmap nat (Timer A)) = None.
Proof. unfold due. by rewrite map_to_list_empty. Qed.

Lemma due_singleton (t : Q) h (tm : Timer A) :
  due t {[h := tm]} = if Qle_bool (deadline tm) t then Some (h, tm) else None.
Proof. unfold due. rewrite map_to_list_singleton. reflexivity. Qed.
End QueueFacts.

Section LoopFacts.
Context {A W : Type}.
Import EventLoop.
Variable timers : W → gmap nat (Timer A).
Variable fire : nat → Timer A → W → W.
Variable set_now : Q → W → W.


End LoopFacts.

(** * Properties *)

(** ** The resolution planner *)

Section ResolutionFacts.
Import Resolution.

Lemma clamp_snapshot force maxv v : clamp true force maxv v = v.
Proof. reflexivity. Qed.

Lemma clamp_forced m v : clamp false true (Some m) v = m.
Proof. reflexivity. Qed.

Lemma clamp_within maxv v :
  (∀ m, maxv = Some m → v ≤ m) → clamp false false maxv v = v.
Proof.
  intros H. unfold clamp. destruct maxv as [m|]; [|done].
  specialize (H m eq_refl). simpl.
  destruct (m <? v) eqn:E; [apply Z.ltb_lt in E; lia | done].
Qed.

(** The snapshot filter is read off the configuration alone. *)
Lemma snapshotFilter_of_config cfg r1 r2 b1 b2 :
  snapshotFilter (determineResolution cfg r1 b1)
  = snapshotFilter (determineResolution cfg r2 b2).
Proof. reflexivity. Qed.
End ResolutionFacts.

Example determineResolution_stream_1080p :
  Resolution.determineResolution videoConfig {| req_width := 1920; req_height := 1080 |} false
  = {| width := 1280; height := 720;
       res_videoFilter := Some
         "scale='min(1280,iw)':'min(720,ih)':force_original_aspect_ratio=decrease,scale=trunc(iw/2)*2:trunc(ih/2)*2"%string;
       snapshotFilter := Some ""%string;
       resizeFilter := Some
         "scale='min(1280,iw)':'min(720,ih)':force_original_aspect_ratio=decrease"%string |}.
Proof. vm_compute. reflexivity. Qed.

(** C7. With maxWidth 1280, maxHeight 720 and forceMax set, a live-stream
    request (1920 x 1080 or any other) is planned at 1280 x 720, and a
    resize filter is present unless the configured filter list switches
    filters off with an item "none". Without forceMax, a live-stream
    request that exceeds neither maximum keeps its dimensions. A snapshot
    request keeps its dimensions under every configuration. *)
Theorem determineResolution_clamping :
  (∀ cfg request,
      maxWidth cfg = Some 1280 → maxHeight cfg = Some 720 → forceMax cfg = true →
      JS.indexOf "none" (Resolution.configured_filters cfg) < 0 →
      let r := Resolution.determineResolution cfg request false in
      width r = 1280 ∧ height r = 720 ∧
      resizeFilter r
      = Some "scale='min(1280,iw)':'min(720,ih)':force_original_aspect_ratio=decrease"%string)
  ∧ (∀ cfg request,
      forceMax cfg = false →
      (∀ m, maxWidth cfg = Some m → req_width request ≤ m) →
      (∀ m, maxHeight cfg = Some m → req_height request ≤ m) →
      let r := Resolution.determineResolution cfg request false in
      width r = req_width request ∧ height r = req_height request)
  ∧ (∀ cfg request,
      let r := Resolution.determineResolution cfg request true in
      width r = req_width request ∧ height r = req_height request).
Proof.
  split; [|split].
  - intros cfg request Hw Hh Hf Hnone. simpl.
    rewrite Hw, Hh, Hf. simpl.
    split; [done|]. split; [done|].
    apply Z.ltb_lt in Hnone. rewrite Hnone. reflexivity.
  - intros cfg request Hf Hw Hh. simpl. rewrite Hf.
    split; by apply clamp_within.
  - intros cfg request. simpl. done.
Qed.

Lemma determineResolution_clamping_witness :
  (let r := Resolution.determineResolution videoConfig
              {| req_width := 1920; req_height := 1080 |} false in
   width r = 1280 ∧ height r = 720 ∧
   resizeFilter r
   = Some "scale='min(1280,iw)':'min(720,ih)':force_original_aspect_ratio=decrease"%string)
  ∧ (let cfg := {| maxStreams := None; maxWidth := Some 1280; maxHeight := Some 720;
                   codec := None; packetSize := None; forceMax := false;
                   videoFilter := None; encoderOptions := None; mapVideo := None;
                   mapAudio := None; audio := false; returnAudioTarget := None |} in
     let r := Resolution.determineResolution cfg
                {| req_width := 640; req_height := 480 |} false in
     width r = 640 ∧ height r = 480).
Proof.
  split.
  - apply (proj1 determineResolution_clamping videoConfig
             {| req_width := 1920; req_height := 1080 |});
      [reflexivity | reflexivity | reflexivity | vm_compute; reflexivity].
  - apply (proj1 (proj2 determineResolution_clamping)).
    + reflexivity.
    + simpl. intros m [= <-]. lia.
    + simpl. intros m [= <-]. lia.
Defined.

(** ** The progress parser *)

Section ProgressFacts.
Import Number Progress.

Lemma buildProgress_returns m :
  (∃ p, buildProgress m = JS.Returned p)
  ↔ is_Some (get m "out_time") ∧ is_Some (get m "progress").
Proof.
  unfold buildProgress, trimOf.
  destruct (get m "out_time") as [ot|], (get m "progress") as [pr|]; split;
    try (intros [p [=]]); try (intros [[? [=]] [? [=]]]); eauto.
Qed.

Lemma parseProgress_fields input r :
  parseProgress input = Some r →
  ∃ ot pr,
    get (readBlock input) "out_time" = Some ot ∧
    get (readBlock input) "progress" = Some pr ∧
    r = {| frame := parseInt (get (readBlock input) "frame");
           fps := parseFloat (get (readBlock input) "fps");
           streamQ := parseFloat (get (readBlock input) "stream_0_0q");
           bitrate := parseFloat (get (readBlock input) "bitrate");
           totalSize := parseInt (get (readBlock input) "total_size");
           outTimeMicroseconds := parseInt (get (readBlock input) "out_time_us");
           outTime := JS.trim ot;
           duplicateFrames := parseInt (get (readBlock input) "dup_frames");
           dropFrames := parseInt (get (readBlock input) "drop_frames");
           speed := parseFloat (get (readBlock input) "speed");
           progress := JS.trim pr |}.
Proof.
  unfold parseProgress, buildProgress, trimOf.
  destruct (JS.startsWith "frame=" input); [|discriminate].
  destruct (get (readBlock input) "out_time") as [ot|]; [|discriminate].
  destruct (get (readBlock input) "progress") as [pr|]; [|discriminate].
  intros [= <-]. eauto.
Qed.
End ProgressFacts.

Example parseProgress_block :
  Progress.parseProgress
    (JS.lines ["frame=10"; "fps=30.0"; "stream_0_0_q=28.0"; "bitrate= 100.5kbits/s";
               "total_size=1234"; "out_time_us=333333"; "out_time=00:00:00.333333";
               "dup_frames=0"; "drop_frames=2"; "speed=1.01x"; "progress=continue"; ""]%string)
  = Some {| frame := Number.Dec false 10 0;
            fps := Number.Dec false 300 (-1);
            streamQ := Number.NaN;
            bitrate := Number.Dec false 1005 (-1);
            totalSize := Number.Dec false 1234 0;
            outTimeMicroseconds := Number.Dec false 333333 0;
            outTime := "00:00:00.333333";
            duplicateFrames := Number.Dec false 0 0;
            dropFrames := Number.Dec false 2 0;
            speed := Number.Dec false 101 (-2);
            progress := "continue" |}.
Proof. vm_compute. reflexivity. Qed.

(** C9, as the source has it. [parseProgress] never throws. It returns a
    record only for a chunk that begins with "frame="; for such a chunk it
    returns [undefined] exactly when the block gives no value to
    "out_time" or to "progress"; otherwise it returns the record whose
    numeric fields are whatever [parseInt] and [parseFloat] make of the
    values, [NaN] included. *)
Theorem parseProgress_discards (input : string) :
  (JS.startsWith "frame=" input = false → Progress.parseProgress input = None)
  ∧ (is_Some (Progress.parseProgress input)
     ↔ JS.startsWith "frame=" input = true
       ∧ is_Some (Progress.get (Progress.readBlock input) "out_time")
       ∧ is_Some (Progress.get (Progress.readBlock input) "progress"))
  ∧ (∀ r, Progress.parseProgress input = Some r →
       let field := Progress.get (Progress.readBlock input) in
       ∃ ot pr,
         field "out_time" = Some ot ∧ field "progress" = Some pr
         ∧ r = {| frame := Number.parseInt (field "frame");
                  fps := Number.parseFloat (field "fps");
                  streamQ := Number.parseFloat (field "stream_0_0q");
                  bitrate := Number.parseFloat (field "bitrate");
                  totalSize := Number.parseInt (field "total_size");
                  outTimeMicroseconds := Number.parseInt (field "out_time_us");
                  outTime := JS.trim ot;
                  duplicateFrames := Number.parseInt (field "dup_frames");
                  dropFrames := Number.parseInt (field "drop_frames");
                  speed := Number.parseFloat (field "speed");
                  progress := JS.trim pr |}).
Proof.
  split; [|split].
  - intros H. unfold Progress.parseProgress. by rewrite H.
  - unfold Progress.parseProgress.
    destruct (JS.startsWith "frame=" input).
    + destruct (Progress.buildProgress (Progress.readBlock input)) as [p|err] eqn:E.
      * split; [intros _|eauto]. split; [done|].
        apply buildProgress_returns. eauto.
      * split; [intros [? [=]]|]. intros (_ & Ho & Hp).
        destruct (proj2 (buildProgress_returns _) (conj Ho Hp)) as [p Hp'].
        congruence.
    + split; [intros [? [=]] | intros [[=] _]].
  - intros r Hr field. by apply parseProgress_fields.
Qed.

Lemma parseProgress_discards_witness :
  Progress.parseProgress "progress=continue" = None
  ∧ is_Some (Progress.parseProgress
               (JS.lines ["frame=1"; "out_time=00:00:01"; "progress=end"]%string)).
Proof.
  split.
  - apply (proj1 (parseProgress_discards "progress=continue")). reflexivity.
  - apply (proj1 (proj2 (parseProgress_discards _))).
    vm_compute. eauto.
Defined.

(** A block that begins with "frame=" and from which not one numeric
    field can be read is not discarded: a record of [NaN]s comes back. *)
Lemma parseProgress_garbage_record :
  Progress.parseProgress
    (JS.lines ["frame=oops"; "no key and no value"; "out_time="; "progress="]%string)
  = Some {| frame := Number.NaN; fps := Number.NaN; streamQ := Number.NaN;
            bitrate := Number.NaN; totalSize := Number.NaN;
            outTimeMicroseconds := Number.NaN; outTime := "";
            duplicateFrames := Number.NaN; dropFrames := Number.NaN;
            speed := Number.NaN; progress := "" |}.
Proof. vm_compute. reflexivity. Qed.

(** ** The ready callback of the supervisor *)

Section FfmpegFacts.
Import Ffmpeg.

Lemma handle_spent now ev p :
  callback p = None →
  callback (handle now ev p).1 = None ∧ invocations (handle now ev p).2 = [].
Proof.
  intros H. destruct ev as [data|line|message|code signal]; simpl.
  - unfold on_stdout. destruct (Progress.parseProgress data) as [pr|]; [|done].
    destruct (negb (started p) && Number.positive (frame pr)); done.
  - unfold on_stderr_line. rewrite H. done.
  - unfold on_error. rewrite H. done.
  - unfold on_exit. rewrite H.
    destruct (killTimeout p) as [h|]; simpl;
      repeat (case_bool_decide; simpl); destruct (killed p); done.
Qed.

Lemma invocations_app o1 o2 : invocations (o1 ++ o2) = invocations o1 ++ invocations o2.
Proof. unfold invocations. apply omap_app. Qed.

(** Once the callback has been let go, no event invokes it. *)
Lemma run_spent now evs : ∀ p,
  callback p = None → invocations (run now evs p).2 = [].
Proof.
  induction evs as [|ev evs IH]; intros p H; simpl; [done|].
  destruct (handle now ev p) as [p1 o1] eqn:E1.
  destruct (run now evs p1) as [p2 o2] eqn:E2. simpl.
  rewrite invocations_app.
  pose proof (handle_spent now ev p H) as [Hc Hi]. rewrite E1 in Hc, Hi. simpl in *.
  rewrite Hi. simpl. specialize (IH p1 Hc). by rewrite E2 in IH.
Qed.

(** When a diagnostic line is what the supervisor sees first, the
    callback is invoked once, with success, whatever follows. *)
Lemma run_line_first now line evs p cb :
  callback p = Some cb →
  invocations (run now (StderrLine line :: evs) p).2 = [(cb, None)].
Proof.
  intros H. simpl. unfold on_stderr_line. rewrite H.
  destruct (run now evs (set_callback None p)) as [p2 o2] eqn:E2. simpl.
  pose proof (run_spent now evs (set_callback None p) eq_refl) as Hs.
  rewrite E2 in Hs. simpl in Hs.
  change (invocations (Log (if alarming line then Error else Debug) (tag p line) :: o2)
          = []) with (invocations o2 = []) in *.
  unfold invocations at 1. simpl. fold (invocations o2). by rewrite Hs.
Qed.
End FfmpegFacts.

(** C5, at the inputs where the source departs from it. The supervisor is
    built with ready callback 7. When the transcoder exits with code 1
    before it has written a diagnostic line, and the line comes after, the
    callback is invoked twice: with the failure, then with success. The
    same after a spawn failure that is followed by a line. *)
Theorem ready_callback_invoked_twice :
  let p := Ffmpeg.construct "cam" "s1" "-i pipe:" (Some 7%nat) 0 in
  Ffmpeg.invocations
    (Ffmpeg.run 0 [Ffmpeg.ProcessExit (Some 1) None;
                   Ffmpeg.StderrLine "Conversion failed!"] p).2
  = [(7%nat, Some "FFmpeg exited with code: 1 and signal: null"%string); (7%nat, None)]
  ∧ Ffmpeg.invocations
      (Ffmpeg.run 0 [Ffmpeg.ProcessError "spawn ffmpeg ENOENT";
                     Ffmpeg.StderrLine "late line"] p).2
    = [(7%nat, Some "FFmpeg process creation failed"%string); (7%nat, None)].
Proof. split; vm_compute; reflexivity. Qed.

Import EventLoop Stream.

(** Reduce the plumbing of the world and of [M], and nothing else: the
    texts of log lines and argument strings stay as they are. *)
Ltac plumb :=
  cbv beta iota zeta delta
      [bind ret throw modify gets emit log fresh when_some try_catch exec
       setTimeout clearTimeout clearInterval update_session update_process deref
       pendingSessions ongoingSessions store timers intervals sockets processes
       next now visitorSnapshot alternativeSnapshot out
       set_pendingSessions set_ongoingSessions set_store set_timers set_intervals
       set_sockets set_processes set_next set_now set_out
       mainProcess returnProcess timeout feedInterval socket
       set_mainProcess set_returnProcess set_timeout set_feedInterval set_socket
       emptySession fst snd default from_option] in *.

(** Name the fields of a world, so that its projections reduce. *)
Ltac open_world w :=
  let pend := fresh "pend" in let ong := fresh "ong" in let sto := fresh "sto" in
  let tim := fresh "tim" in let ints := fresh "ints" in let socks := fresh "socks" in
  let procs := fresh "procs" in let nxt := fresh "nxt" in let nw := fresh "nw" in
  let vs := fresh "vs" in let alt := fresh "alt" in let o := fresh "o" in
  destruct w as [pend ong sto tim ints socks procs nxt nw vs alt o].

Section StreamFacts.
Variable cfg : VideoConfig.
Variable cameraName : string.
Variable fails : Release → World → option string.

Lemma startStream_absent request cb w :
  pendingSessions w !! sessionID request = None →
  startStream cfg cameraName request cb w
  = (JS.Returned tt,
     set_out (out w ++ [OLog Error (tag cameraName "Error finding session information");
                        OStreamCallback cb (Some "Error finding session information"%string)]) w).
Proof.
  intros H. open_world w. unfold startStream. plumb. rewrite H.
  rewrite <- app_assoc. reflexivity.
Qed.

Lemma startStream_present request cb w info :
  pendingSessions w !! sessionID request = Some info →
  ∃ w', startStream cfg cameraName request cb w = (JS.Returned tt, w')
    ∧ pendingSessions w' = delete (sessionID request) (pendingSessions w)
    ∧ ongoingSessions w' = <[sessionID request := next w]> (ongoingSessions w)
    ∧ deref (next w) w'
      = {| mainProcess := Some (S (S (next w)));
           returnProcess :=
             if JS.truthy (returnAudioTarget cfg) then Some (S (S (S (next w)))) else None;
           timeout := None;
           feedInterval :=
             Some (if JS.truthy (returnAudioTarget cfg) then S (S (S (S (next w))))
                   else S (S (S (next w))));
           socket := Some (S (next w)) |}
    ∧ (∀ r, r ≠ next w → store w' !! r = store w !! r)
    ∧ timers w' = timers w
    ∧ sockets w'
      = <[S (next w) :=
            {| udp6 := ipv6 info; bound := Some (videoReturnPort info); running := true;
               s_sessionID := sessionID request; s_session := next w;
               s_rtcp_interval := rtcp_interval (video request) |}]> (sockets w)
    ∧ (next w < next w')%nat.
Proof.
  intros H. open_world w. unfold startStream, newFFmpegProcess. plumb. rewrite H.
  destruct (audio cfg && negb (bool_decide (is_Some (audioArgs cfg request info))));
    destruct (JS.truthy (returnAudioTarget cfg)); plumb;
    (eexists; split; [reflexivity|]); plumb;
    rewrite ?lookup_insert_eq; plumb;
    rewrite ?lookup_insert_eq; plumb;
    rewrite ?lookup_insert_eq; plumb;
    rewrite ?lookup_insert_eq; plumb;
    (repeat split;
     first [ reflexivity | lia
           | by intros r Hr; rewrite !lookup_insert_ne by done
           | by rewrite ?lookup_insert_ne by lia; rewrite lookup_insert_eq ]).
Qed.

(** *** The load of the timer table *)

Lemma load_insert_fresh (ts : gmap nat (Timer TimerAction)) h tm :
  ts !! h = None → load (<[h := tm]> ts) = (weight (action tm) + load ts)%nat.
Proof.
  intros H. unfold load. by rewrite (map_to_list_insert _ _ _ H).
Qed.

Lemma load_delete (ts : gmap nat (Timer TimerAction)) h tm :
  ts !! h = Some tm → (weight (action tm) + load (delete h ts))%nat = load ts.
Proof.
  intros H. unfold load. by rewrite <- (map_to_list_delete _ _ _ H).
Qed.

Lemma load_delete_le (ts : gmap nat (Timer TimerAction)) h :
  (load (delete h ts) ≤ load ts)%nat.
Proof.
  destruct (ts !! h) as [tm|] eqn:E.
  - pose proof (load_delete ts h tm E). lia.
  - by rewrite delete_id.
Qed.

Lemma load_insert_le (ts : gmap nat (Timer TimerAction)) h tm :
  (load (<[h := tm]> ts) ≤ weight (action tm) + load ts)%nat.
Proof.
  rewrite <- insert_delete_eq.
  rewrite load_insert_fresh by apply lookup_delete_eq.
  pose proof (load_delete_le ts h). lia.
Qed.


(** *** The footprint of a step of [stopStream] *)

Lemma same_owners_refl w : same_owners w w.
Proof. intros k s Hs. eauto. Qed.

Lemma same_owners_trans w w1 w2 :
  same_owners w w1 → same_owners w1 w2 → same_owners w w2.
Proof.
  intros H1 H2 k s2 Hs2. destruct (H2 k s2 Hs2) as (s1 & Hs1 & E1 & E2).
  destruct (H1 k s1 Hs1) as (s & Hs & E3 & E4). exists s. split; [done|]. split; congruence.
Qed.

Lemma same_owners_sockets w w' : sockets w' = sockets w → same_owners w w'.
Proof. intros E k s Hs. rewrite E in Hs. eauto. Qed.

Lemma footprint_refl X w : footprint X 0 [] w w.
Proof.
  unfold footprint. rewrite app_nil_r.
  repeat split; auto; try lia; try (by apply same_owners_sockets).
Qed.

Lemma footprint_trans X k1 k2 n1 n2 w w1 w2 :
  footprint X k1 n1 w w1 → footprint X k2 n2 w1 w2 →
  footprint X (k1 + k2) (n1 ++ n2) w w2.
Proof.
  intros (P1 & O1 & S1 & T1 & N1 & U1 & L1 & K1 & W1)
         (P2 & O2 & S2 & T2 & N2 & U2 & L2 & K2 & W2).
  unfold footprint. repeat split; try congruence; try lia.
  - rewrite U2, U1. by rewrite app_assoc.
  - intros h Hh HX. rewrite K2 by (done || lia). by apply K1.
  - by apply same_owners_trans with w1.
Qed.

Lemma footprint_weaken (X Y : nat → Prop) k new w w' :
  (∀ h, X h → Y h) → footprint X k new w w' → footprint Y k new w w'.
Proof.
  intros HXY (P1 & O1 & S1 & T1 & N1 & U1 & L1 & K1 & W1).
  unfold footprint. repeat split; auto.
Qed.

Lemma footprint_any (Y : nat → Prop) k new w w' :
  footprint (λ _, False) k new w w' → footprint Y k new w w'.
Proof. apply footprint_weaken. intros ? []. Qed.

Lemma clearTimeout_step (o : option nat) w :
  ∃ w', when_some o clearTimeout w = (JS.Returned tt, w')
    ∧ footprint (λ h, o = Some h) 0
        (match o with Some h => [OClearTimeout h] | None => [] end) w w'.
Proof.
  open_world w. destruct o as [h|]; plumb.
  - eexists; split; [reflexivity|]. unfold footprint; plumb.
    repeat split; auto; try (by apply same_owners_sockets).
    + pose proof (load_delete_le tim h). lia.
    + intros h' _ Hne. apply lookup_delete_ne. congruence.
  - eexists; split; [reflexivity|]. apply footprint_refl.
Qed.

Lemma clearInterval_step (o : option nat) w :
  ∃ w', when_some o clearInterval w = (JS.Returned tt, w')
    ∧ footprint (λ _, False) 0
        (match o with Some h => [OClearInterval h] | None => [] end) w w'.
Proof.
  open_world w. destruct o as [h|]; plumb.
  - eexists; split; [reflexivity|]. unfold footprint; plumb.
    repeat split; auto; try lia; try (by apply same_owners_sockets).
  - eexists; split; [reflexivity|]. apply footprint_refl.
Qed.

(** The release of the socket, inside its [try]. *)
Lemma close_step (o : option nat) w :
  ∃ w' new,
    try_catch (when_some o (socket_close fails))
      (λ err, log Error (tag cameraName ("Error occurred closing socket: " +:+ err))) w
    = (JS.Returned tt, w')
    ∧ footprint (λ _, False) 0 new w w'
    ∧ released_socket cameraName o new.
Proof.
  destruct o as [k|]; plumb.
  - unfold socket_close.
    destruct (fails (SocketClose k) w) as [err|]; open_world w; plumb.
    { do 2 eexists. split; [reflexivity|]. split; [|apply socket_failed].
      unfold footprint; plumb. repeat split; auto; try lia; try (by apply same_owners_sockets). }
    destruct (socks !! k) as [s|] eqn:Ek; plumb.
    + destruct (running s); plumb.
      * do 2 eexists. split; [reflexivity|]. split; [|apply socket_closed].
        unfold footprint; plumb. repeat split; auto; try lia.
        intros k' s' Hs'. simpl in Hs'.
        destruct (decide (k = k')) as [<-|Hne].
        -- rewrite lookup_insert_eq in Hs'. injection Hs' as <-.
           exists s. split; [exact Ek | done].
        -- rewrite lookup_insert_ne in Hs' by done. eauto.
      * do 2 eexists. split; [reflexivity|]. split; [|apply socket_failed].
        unfold footprint; plumb. repeat split; auto; try lia; try (by apply same_owners_sockets).
    + do 2 eexists. split; [reflexivity|]. split; [|apply socket_failed].
      unfold footprint; plumb. repeat split; auto; try lia; try (by apply same_owners_sockets).
  - do 2 eexists. split; [reflexivity|]. split; [apply footprint_refl | constructor].
Qed.

(** The release of a supervisor, inside its [try]. *)
Lemma stop_step (which : string) (o : option nat) w :
  ∃ w' new,
    try_catch (when_some o (process_stop fails))
      (λ err, log Error
         (tag cameraName
            ("Error occurred terminating " +:+ which +:+ " FFmpeg process: " +:+ err))) w
    = (JS.Returned tt, w')
    ∧ footprint (λ _, False) 1 new w w'
    ∧ released_process cameraName which o new.
Proof.
  destruct o as [pid|]; plumb.
  - unfold process_stop. plumb.
    destruct (fails (StdinEnd pid) w) as [err|]; open_world w; plumb.
    + do 2 eexists. split; [reflexivity|]. split; [|apply process_failed].
      unfold footprint; plumb. repeat split; auto; try lia; try (by apply same_owners_sockets).
    + do 2 eexists. split; [reflexivity|]. split; [|apply process_stopped].
      unfold footprint; plumb. repeat split; auto; try lia; try (by apply same_owners_sockets).
      * pose proof (load_insert_le tim nxt
                      {| deadline := (nw + 2000)%Q; action := Kill pid |}).
        simpl in *. lia.
      * intros h Hh _. apply lookup_insert_ne. lia.
  - do 2 eexists. split; [reflexivity|]. split; [|constructor].
    unfold footprint. rewrite app_nil_r.
    repeat split; auto; try lia; by apply same_owners_sockets.
Qed.

(** *** [stopStream] *)

Lemma stopStream_absent sid w :
  ongoingSessions w !! sid = None →
  stopStream cameraName fails sid w
  = (JS.Returned tt,
     set_out (out w ++ [OLog Info (tag cameraName "Stopped video stream")]) w).
Proof.
  intros H. open_world w. unfold stopStream. plumb. rewrite H.
  rewrite delete_id by done. reflexivity.
Qed.

(** What [stopStream] does to a session that is there. *)
Lemma stopStream_present sid w r :
  ongoingSessions w !! sid = Some r →
  ∃ w' ns nm nr,
    stopStream cameraName fails sid w = (JS.Returned tt, w')
    ∧ pendingSessions w' = pendingSessions w
    ∧ ongoingSessions w' = delete sid (ongoingSessions w)
    ∧ store w' = store w
    ∧ now w' = now w
    ∧ (next w ≤ next w')%nat
    ∧ out w'
      = out w ++ (cleared_timers (deref r w) ++ ns ++ nm ++ nr)
          ++ [OLog Info (tag cameraName "Stopped video stream")]
    ∧ released_socket cameraName (socket (deref r w)) ns
    ∧ released_process cameraName "main" (mainProcess (deref r w)) nm
    ∧ released_process cameraName "two-way" (returnProcess (deref r w)) nr
    ∧ (load (timers w') ≤ load (timers w) + 2)%nat
    ∧ (∀ h, (h < next w)%nat → timeout (deref r w) ≠ Some h →
            timers w' !! h = timers w !! h)
    ∧ same_owners w w'.
Proof.
  intros H.
  destruct (clearTimeout_step (timeout (deref r w)) w) as (w1 & E1 & F1).
  destruct (clearInterval_step (feedInterval (deref r w)) w1) as (w2 & E2 & F2).
  destruct (close_step (socket (deref r w)) w2) as (w3 & ns & E3 & F3 & R3).
  destruct (stop_step "main" (mainProcess (deref r w)) w3) as (w4 & nm & E4 & F4 & R4).
  destruct (stop_step "two-way" (returnProcess (deref r w)) w4) as (w5 & nr & E5 & F5 & R5).
  pose proof (footprint_trans _ _ _ _ _ _ _ _ F1
                (footprint_any _ _ _ _ _ F2)) as F12.
  pose proof (footprint_trans _ _ _ _ _ _ _ _ F12
                (footprint_any _ _ _ _ _ F3)) as F123.
  pose proof (footprint_trans _ _ _ _ _ _ _ _ F123
                (footprint_any _ _ _ _ _ F4)) as F1234.
  pose proof (footprint_trans _ _ _ _ _ _ _ _ F1234
                (footprint_any _ _ _ _ _ F5)) as (P & O & S & T & N & U & L & K & W).
  exists (set_out (out w5 ++ [OLog Info (tag cameraName "Stopped video stream")])
            (set_ongoingSessions (delete sid (ongoingSessions w5)) w5)), ns, nm, nr.
  split.
  { unfold stopStream. cbv beta iota delta [String.append] in E3, E4, E5 |- *.
    unfold bind at 1. unfold gets at 1. rewrite H.
    unfold when_some at 1.
    unfold bind at 1. unfold bind at 1. unfold gets at 1.
    unfold bind at 1. rewrite E1.
    unfold bind at 1. rewrite E2.
    unfold bind at 1. rewrite E3.
    unfold bind at 1. rewrite E4.
    rewrite E5. reflexivity. }
  open_world w5. plumb. simpl in *.
  repeat split; try congruence; try done; try lia.
  all: first [ by intros h Hh Hne; apply K
             | by rewrite U; unfold cleared_timers; rewrite <- !app_assoc
             | by intros k' s' Hs'; apply (W k' s') ].
Qed.

(** [stopStream] returns, and what it does to the two session maps. *)
Lemma stopStream_maps sid w :
  ∃ w', stopStream cameraName fails sid w = (JS.Returned tt, w')
    ∧ pendingSessions w' = pendingSessions w
    ∧ ongoingSessions w' = delete sid (ongoingSessions w).
Proof.
  destruct (ongoingSessions w !! sid) as [r|] eqn:E.
  - destruct (stopStream_present sid w r E) as (w' & ? & ? & ? & Hrun & HP & HO & _).
    eauto.
  - rewrite stopStream_absent by done. eexists. split; [reflexivity|].
    open_world w. plumb. simpl in E. by rewrite delete_id.
Qed.


Lemma prepareStream_run request vp vs ap asrc cb w :
  ∃ info,
    prepareStream request vp vs ap asrc cb w
    = (JS.Returned tt,
       set_out (out w ++ [OPrepareCallback cb
                            {| resp_video := {| r_port := vp; r_ssrc := vs;
                                                r_srtp_key := srtp_key (p_video request);
                                                r_srtp_salt := srtp_salt (p_video request) |};
                               resp_audio := {| r_port := ap; r_ssrc := asrc;
                                                r_srtp_key := srtp_key (p_audio request);
                                                r_srtp_salt := srtp_salt (p_audio request) |} |}])
         (set_pendingSessions (<[p_sessionID request := info]> (pendingSessions w)) w)).
Proof. eexists. reflexivity. Qed.

Lemma exclusive_delete_ongoing sid w w' :
  pendingSessions w' = pendingSessions w →
  ongoingSessions w' = delete sid (ongoingSessions w) →
  exclusive w → exclusive w'.
Proof.
  intros HP HO Hex sid'. rewrite HP, HO.
  destruct (Hex sid') as [?|Hn]; [by left|right].
  destruct (decide (sid = sid')) as [->|?];
    [apply lookup_delete_eq | by rewrite lookup_delete_ne].
Qed.
End StreamFacts.

(** ** The sessions of the delegate *)




(** C2. A start request for a session id that has no pending entry is
    answered through the caller's callback with the error "Error finding
    session information", once; nothing else changes: no Active entry is
    made and both session maps, the store of sessions, the timers, the
    sockets and the processes are as before. *)
Theorem startStream_session_not_found cfg cameraName request cb w :
  Stream.pendingSessions w !! Stream.sessionID request = None →
  ∃ w',
    Stream.startStream cfg cameraName request cb w = (JS.Returned tt, w')
    ∧ Stream.out w'
      = Stream.out w
        ++ [Stream.OLog Error (Stream.tag cameraName "Error finding session information");
            Stream.OStreamCallback cb (Some "Error finding session information"%string)]
    ∧ Stream.pendingSessions w' = Stream.pendingSessions w
    ∧ Stream.ongoingSessions w' = Stream.ongoingSessions w
    ∧ Stream.store w' = Stream.store w
    ∧ Stream.timers w' = Stream.timers w
    ∧ Stream.intervals w' = Stream.intervals w
    ∧ Stream.sockets w' = Stream.sockets w
    ∧ Stream.processes w' = Stream.processes w.
Proof.
  intros H. eexists. split; [by apply startStream_absent|].
  destruct w; repeat split.
Qed.

(** The two ways of the claim to be without a pending entry: a start
    before any prepare, and a start after an earlier start has used the
    entry up and a stop has removed the session. *)
Lemma startStream_session_not_found_witness :
  (∃ w',
     Stream.startStream videoConfig "cam" Sample.startRequest 9 (Stream.initial 0)
     = (JS.Returned tt, w')
     ∧ Stream.ongoingSessions w' = ∅ ∧ Stream.pendingSessions w' = ∅)
  ∧ (let stopped := Stream.exec (Stream.stopStream "cam" Sample.reliable "s1")
                      Sample.streaming in
     ∃ w',
       Stream.startStream videoConfig "cam" Sample.startRequest 9 stopped
       = (JS.Returned tt, w')
       ∧ Stream.ongoingSessions w' !! "s1" = None
       ∧ Stream.pendingSessions w' !! "s1" = None).
Proof.
  split.
  - destruct (startStream_session_not_found videoConfig "cam" Sample.startRequest 9
                (Stream.initial 0)) as (w' & Hrun & _ & HP & HO & _);
      [reflexivity|].
    exists w'. split; [exact Hrun|]. split; [exact HO | exact HP].
  - intros stopped.
    destruct (startStream_session_not_found videoConfig "cam" Sample.startRequest 9
                stopped) as (w' & Hrun & _ & HP & HO & _);
      [vm_compute; reflexivity|].
    exists w'. split; [exact Hrun|].
    rewrite HO, HP. split; vm_compute; reflexivity.
Defined.

(** The hub prepares a session id again while the session streams: the
    id is then in both maps. *)
Lemma prepared_while_active_in_both_maps :
  is_Some (Stream.pendingSessions Sample.preparedAgain !! "s1")
  ∧ is_Some (Stream.ongoingSessions Sample.preparedAgain !! "s1")
  ∧ ¬ Stream.exclusive Sample.preparedAgain.
Proof.
  assert (is_Some (Stream.pendingSessions Sample.preparedAgain !! "s1")) as HP
    by (vm_compute; eauto).
  assert (is_Some (Stream.ongoingSessions Sample.preparedAgain !! "s1")) as HO
    by (vm_compute; eauto).
  split; [done|]. split; [done|].
  intros Hex. destruct (Hex "s1") as [E|E]; rewrite E in *; by eapply is_Some_None.
Qed.

(** C3, as the source has it. [startStream] and [stopStream] keep the two
    session maps apart: a world in which no id is in both stays so. A
    successful start takes the id out of [pendingSessions] and puts it into
    [ongoingSessions] under a new session object, in place of the entry
    that was there; a stop takes the id out of [ongoingSessions].
    [prepareStream] puts the id into [pendingSessions] and does not look at
    [ongoingSessions]: it keeps the maps apart when the id is not
    active. *)
Theorem session_maps_kept_apart cfg cameraName fails w :
  (∀ request cb,
      let w' := (Stream.startStream cfg cameraName request cb w).2 in
      (Stream.exclusive w → Stream.exclusive w')
      ∧ (is_Some (Stream.pendingSessions w !! Stream.sessionID request) →
         Stream.pendingSessions w'
         = delete (Stream.sessionID request) (Stream.pendingSessions w)
         ∧ Stream.ongoingSessions w'
           = <[Stream.sessionID request := Stream.next w]> (Stream.ongoingSessions w)))
  ∧ (∀ sessionId,
      let w' := (Stream.stopStream cameraName fails sessionId w).2 in
      Stream.pendingSessions w' = Stream.pendingSessions w
      ∧ Stream.ongoingSessions w' = delete sessionId (Stream.ongoingSessions w)
      ∧ (Stream.exclusive w → Stream.exclusive w'))
  ∧ (∀ request vp vs ap asrc cb,
      let w' := (Stream.prepareStream request vp vs ap asrc cb w).2 in
      is_Some (Stream.pendingSessions w' !! Stream.p_sessionID request)
      ∧ Stream.ongoingSessions w' = Stream.ongoingSessions w
      ∧ (Stream.exclusive w →
         Stream.ongoingSessions w !! Stream.p_sessionID request = None →
         Stream.exclusive w')).
Proof.
  split; [|split].
  - intros request cb w'.
    destruct (Stream.pendingSessions w !! Stream.sessionID request) as [info|] eqn:E.
    + destruct (startStream_present cfg cameraName request cb w info E)
        as (w1 & Hrun & HP & HO & _).
      subst w'. rewrite Hrun. simpl. split; [|done].
      intros Hex sid. rewrite HP, HO.
      destruct (decide (Stream.sessionID request = sid)) as [->|Hne].
      * left. apply lookup_delete_eq.
      * rewrite lookup_delete_ne, lookup_insert_ne by done. apply Hex.
    + subst w'. rewrite startStream_absent by done. simpl.
      split; [|by intros [? [=]]].
      intros Hex sid. destruct w; apply Hex.
  - intros sessionId w'.
    destruct (stopStream_maps cameraName fails sessionId w) as (w1 & Hrun & HP & HO).
    subst w'. rewrite Hrun. simpl. split; [done|]. split; [done|].
    by apply (exclusive_delete_ongoing sessionId w).
  - intros request vp vs ap asrc cb w'.
    destruct (prepareStream_run request vp vs ap asrc cb w) as [info Hrun].
    subst w'. rewrite Hrun. destruct w. simpl.
    split; [rewrite lookup_insert_eq; eauto|]. split; [done|].
    intros Hex Hfree sid. unfold Stream.exclusive in Hex. simpl in *.
    destruct (decide (Stream.p_sessionID request = sid)) as [<-|Hne].
    + by right.
    + rewrite lookup_insert_ne by done. apply Hex.
Qed.

Lemma session_maps_kept_apart_witness :
  let w' := (Stream.startStream videoConfig "cam" Sample.startRequest 2 Sample.prepared).2 in
  Stream.exclusive w'
  ∧ Stream.pendingSessions w' !! "s1" = None
  ∧ Stream.ongoingSessions w' !! "s1" = Some 0%nat.
Proof.
  intros w'.
  destruct (proj1 (session_maps_kept_apart videoConfig "cam" Sample.reliable Sample.prepared)
              Sample.startRequest 2%nat) as [Hex Hmove].
  fold w' in Hex, Hmove.
  split.
  - apply Hex. intros sid. right. reflexivity.
  - destruct Hmove as [HP HO]; [vm_compute; eauto|].
    rewrite HP, HO. split; [apply lookup_delete_eq | apply lookup_insert_eq].
Defined.


(** ** The inactivity timer *)

Section InactivityFacts.
Import EventLoop Stream.
Variable cameraName : string.
Variable fails : Release → World → option string.






End InactivityFacts.



(** ** The worlds that a delegate can reach are well-formed *)

Section Reachable.
Import EventLoop Stream.
Variable cfg : VideoConfig.
Variable cameraName : string.
Variable fails : Release → World → option string.
























End Reachable.





(** ** The snapshot pipeline *)

Ltac plumb_snapshot :=
  cbv beta iota zeta delta
      [Snapshot.emit Snapshot.log Snapshot.resizeSnapshot Snapshot.resume
       Snapshot.spawnFetch Snapshot.startDownload Snapshot.fetchSnapshot
       Snapshot.update_fetch Snapshot.finish_resize
       Snapshot.timer_callback Snapshot.fire Snapshot.currentImage
       Snapshot.newFetch Snapshot.newResize
       Snapshot.snapshotPromise Snapshot.alternativeSnapshot Snapshot.visitorSnapshot
       Snapshot.promises Snapshot.fetches Snapshot.resizes Snapshot.downloads
       Snapshot.timers Snapshot.next Snapshot.now Snapshot.out
       Snapshot.set_snapshotPromise Snapshot.set_alternativeSnapshot
       Snapshot.set_visitorSnapshot Snapshot.set_promises Snapshot.set_fetches
       Snapshot.set_resizes Snapshot.set_downloads Snapshot.set_timers
       Snapshot.set_next Snapshot.set_now Snapshot.set_out
       Snapshot.settled Snapshot.waiters
       Snapshot.f_promise Snapshot.f_filter Snapshot.f_input Snapshot.snapshotBuffer
       Snapshot.f_startTime Snapshot.f_closed
       EventLoop.deadline EventLoop.action
       foldl fst snd] in *.

Ltac open_snapshot_world w :=
  let slot := fresh "slot" in let alt := fresh "alt" in let vis := fresh "vis" in
  let proms := fresh "proms" in let fets := fresh "fets" in let rszs := fresh "rszs" in
  let dls := fresh "dls" in let tim := fresh "tim" in let nxt := fresh "nxt" in
  let nw := fresh "nw" in let o := fresh "o" in
  destruct w as [slot alt vis proms fets rszs dls tim nxt nw o].

Section SnapshotFacts.
Import EventLoop Snapshot.
Variable cfg : VideoConfig.
Variable cameraName : string.

(** A request that finds the slot taken starts no fetch and no
    download, and leaves the slot and the timers alone. *)
Lemma request_cached request cb w p :
  snapshotPromise w = Some p →
  let w' := handleSnapshotRequest cfg cameraName request cb w in
  snapshotPromise w' = Some p
  ∧ fetches w' = fetches w
  ∧ downloads w' = downloads w
  ∧ timers w' = timers w
  ∧ now w' = now w
  ∧ visitorSnapshot w' = visitorSnapshot w
  ∧ alternativeSnapshot w' = alternativeSnapshot w
  ∧ (∀ pr, promises w !! p = Some pr →
       match settled pr with
       | None =>
           next w' = next w ∧ resizes w' = resizes w
           ∧ promises w'
             = <[p := {| settled := None;
                         waiters := waiters pr
                                    ++ [{| w_callback := cb;
                                           w_resolution := Snapshot.planned cfg request;
                                           w_cached := true |}] |}]> (promises w)
       | Some (JS.Returned snapshot) =>
           resizes w'
           = <[next w := newResize cb (Snapshot.planned cfg request) snapshot]> (resizes w)
       | Some (JS.Thrown err) =>
           resizes w' = resizes w
           ∧ ∃ pre, out w' = pre ++ [OSnapshotCallback cb None]
       end).
Proof.
  intros Hslot. open_snapshot_world w. simpl in Hslot. subst slot.
  unfold handleSnapshotRequest. plumb_snapshot. unfold await. plumb_snapshot.
  destruct (proms !! p) as [[[[snapshot|err]|] ks]|] eqn:E; plumb_snapshot;
    (repeat split; try done); intros pr [= <-]; plumb_snapshot; try done.
  split; [done|]. eexists. reflexivity.
Qed.

(** A request that finds the slot empty, with an image at hand: a new
    promise takes the slot, one fetch is spawned for it with the
    request's snapshot filter, and the request waits. *)
Lemma request_fresh request cb w image :
  snapshotPromise w = None → currentImage w = Some image →
  let w' := handleSnapshotRequest cfg cameraName request cb w in
  snapshotPromise w' = Some (next w)
  ∧ promises w'
    = <[next w := {| settled := None;
                     waiters := [{| w_callback := cb;
                                    w_resolution := Snapshot.planned cfg request;
                                    w_cached := false |}] |}]> (promises w)
  ∧ fetches w'
    = <[S (next w) :=
          newFetch (next w) (snapshotFilter (Snapshot.planned cfg request)) image (now w)]>
        (fetches w)
  ∧ resizes w' = resizes w
  ∧ downloads w' = downloads w
  ∧ timers w' = timers w
  ∧ next w' = S (S (next w))
  ∧ now w' = now w
  ∧ visitorSnapshot w' = visitorSnapshot w
  ∧ alternativeSnapshot w' = alternativeSnapshot w.
Proof.
  intros Hslot Himage. open_snapshot_world w. simpl in Hslot. subst slot.
  unfold currentImage in Himage. simpl in Himage.
  unfold handleSnapshotRequest. plumb_snapshot.
  destruct vis as [b|]; [injection Himage as ->|subst alt];
    plumb_snapshot; unfold await; plumb_snapshot;
    rewrite lookup_insert_eq; plumb_snapshot;
    rewrite insert_insert_eq; repeat split.
Qed.

(** The same when no image is at hand yet: the promise takes the slot at
    once, the idle image is downloaded first, and no fetch runs before
    it has arrived. *)
Lemma request_fresh_downloading request cb w :
  snapshotPromise w = None → currentImage w = None →
  let w' := handleSnapshotRequest cfg cameraName request cb w in
  snapshotPromise w' = Some (next w)
  ∧ promises w'
    = <[next w := {| settled := None;
                     waiters := [{| w_callback := cb;
                                    w_resolution := Snapshot.planned cfg request;
                                    w_cached := false |}] |}]> (promises w)
  ∧ fetches w' = fetches w
  ∧ downloads w'
    = <[S (next w) :=
          {| d_fetch := Some (next w, snapshotFilter (Snapshot.planned cfg request)) |}]>
        (downloads w)
  ∧ timers w' = timers w
  ∧ next w' = S (S (next w)).
Proof.
  intros Hslot Himage. open_snapshot_world w. simpl in Hslot. subst slot.
  unfold currentImage in Himage. simpl in Himage.
  unfold handleSnapshotRequest. plumb_snapshot.
  destruct vis as [b|]; [discriminate|]. subst alt.
  plumb_snapshot. unfold await. plumb_snapshot.
  rewrite lookup_insert_eq. plumb_snapshot.
  rewrite insert_insert_eq. repeat split.
Qed.

(** The idle image arrives: it is remembered for later requests, and
    the fetch that waited for it is run on it. *)
Lemma download_done_step d data p filter w :
  downloads w !! d = Some {| d_fetch := Some (p, filter) |} →
  let w' := download_done cameraName d data w in
  fetches w' = <[next w := newFetch p filter data (now w)]> (fetches w)
  ∧ alternativeSnapshot w' = Some data
  ∧ snapshotPromise w' = snapshotPromise w
  ∧ promises w' = promises w.
Proof.
  intros Hd. open_snapshot_world w. cbn [downloads] in Hd.
  unfold download_done. cbn [downloads]. rewrite Hd. plumb_snapshot.
  repeat split.
Qed.

(** Two requests while the idle image is being downloaded: one download,
    one promise that both await, and one fetch run once the image is
    there. *)
Lemma requests_coalesce_while_downloading r1 r2 c1 c2 data w :
  snapshotPromise w = None → currentImage w = None →
  let w1 := handleSnapshotRequest cfg cameraName r1 c1 w in
  let w2 := handleSnapshotRequest cfg cameraName r2 c2 w1 in
  let w3 := download_done cameraName (S (next w)) data w2 in
  snapshotPromise w2 = Some (next w)
  ∧ fetches w2 = fetches w
  ∧ downloads w2
    = <[S (next w) :=
          {| d_fetch := Some (next w, snapshotFilter (Snapshot.planned cfg r1)) |}]>
        (downloads w)
  ∧ (waiters <$> promises w2 !! next w)
    = Some [{| w_callback := c1; w_resolution := Snapshot.planned cfg r1;
               w_cached := false |};
            {| w_callback := c2; w_resolution := Snapshot.planned cfg r2;
               w_cached := true |}]
  ∧ fetches w3
    = <[S (S (next w)) :=
          newFetch (next w) (snapshotFilter (Snapshot.planned cfg r1)) data (now w2)]>
        (fetches w)
  ∧ alternativeSnapshot w3 = Some data.
Proof.
  intros Hslot Himage w1 w2 w3.
  destruct (request_fresh_downloading r1 c1 w Hslot Himage)
    as (S1 & P1 & F1 & D1 & T1 & N1).
  fold w1 in S1, P1, F1, D1, T1, N1.
  destruct (request_cached r2 c2 w1 (next w) S1)
    as (S2 & F2 & D2 & T2 & C2 & V2 & A2 & K2).
  fold w2 in S2, F2, D2, T2, C2, V2, A2, K2.
  specialize (K2 _ ltac:(rewrite P1; apply lookup_insert_eq)). cbn [settled] in K2.
  destruct K2 as (N2 & Z2 & P2). cbn [waiters app] in P2.
  rewrite P1, insert_insert_eq in P2.
  assert (downloads w2 !! S (next w)
          = Some {| d_fetch := Some (next w, snapshotFilter (Snapshot.planned cfg r1)) |})
    as Hd by (rewrite D2, D1; apply lookup_insert_eq).
  destruct (download_done_step _ data _ _ w2 Hd) as (F3 & A3 & _).
  fold w3 in F3, A3.
  split; [done|]. split; [by rewrite F2|]. split; [by rewrite D2|].
  split; [by rewrite P2, lookup_insert_eq|].
  split; [|done]. by rewrite F3, N2, N1, F2, F1.
Qed.

(** The fetch run closes with an image while two requests wait for its
    promise: from that moment the slot has 3 seconds left, and both
    requests go on with the same image, each into its own resize. *)
Lemma fetch_close_two_waiters f x k1 k2 w :
  fetches w !! f = Some x → f_closed x = false → snapshotBuffer x ≠ ""%string →
  promises w !! f_promise x = Some {| settled := None; waiters := [k1; k2] |} →
  let w' := fetch_close cameraName f w in
  snapshotPromise w' = snapshotPromise w
  ∧ timers w'
    = <[next w := {| deadline := (now w + 3 * 1000)%Q; action := ExpireSnapshot |}]>
        (timers w)
  ∧ promises w'
    = <[f_promise x := {| settled := Some (JS.Returned (snapshotBuffer x));
                          waiters := [] |}]> (promises w)
  ∧ resizes w'
    = <[S (S (next w)) := newResize (w_callback k2) (w_resolution k2) (snapshotBuffer x)]>
        (<[S (next w) := newResize (w_callback k1) (w_resolution k1) (snapshotBuffer x)]>
           (resizes w))
  ∧ (∀ g, fetches w' !! g = None ↔ fetches w !! g = None)
  ∧ downloads w' = downloads w
  ∧ next w' = S (S (S (next w)))
  ∧ now w' = now w
  ∧ visitorSnapshot w' = visitorSnapshot w
  ∧ alternativeSnapshot w' = alternativeSnapshot w.
Proof.
  intros Hf Hopen Hdata Hp. open_snapshot_world w. simpl in Hf, Hp.
  unfold fetch_close. plumb_snapshot. rewrite Hf. destruct x as [p fl inp buf st cl].
  simpl in Hopen, Hdata, Hp. subst cl. plumb_snapshot.
  assert (String.eqb buf "" = false) as -> by (by apply String.eqb_neq).
  assert (∀ g, alter (λ x : Fetch,
                 {| f_promise := f_promise x; f_filter := f_filter x;
                    f_input := f_input x; snapshotBuffer := snapshotBuffer x;
                    f_startTime := f_startTime x; f_closed := true |}) f fets !! g = None
               ↔ fets !! g = None) as Hdom.
  { intros g. apply lookup_alter_None. }
  destruct (negb (Qle_bool 5 ((nw - st) / 1000)));
    [|destruct (negb (Qle_bool 22 ((nw - st) / 1000)))];
    unfold settle; plumb_snapshot; rewrite Hp; plumb_snapshot; repeat split;
    try apply Hdom.
Qed.

Lemma fetch_stdout_frame f data w :
  let w' := fetch_stdout f data w in
  snapshotPromise w' = snapshotPromise w ∧ promises w' = promises w
  ∧ timers w' = timers w ∧ resizes w' = resizes w ∧ next w' = next w
  ∧ now w' = now w ∧ visitorSnapshot w' = visitorSnapshot w
  ∧ alternativeSnapshot w' = alternativeSnapshot w ∧ downloads w' = downloads w
  ∧ ∀ x, fetches w !! f = Some x →
         fetches w' !! f
         = Some {| f_promise := f_promise x; f_filter := f_filter x;
                   f_input := f_input x;
                   snapshotBuffer := (snapshotBuffer x +:+ data)%string;
                   f_startTime := f_startTime x; f_closed := f_closed x |}.
Proof.
  open_snapshot_world w. unfold fetch_stdout. plumb_snapshot. repeat split.
  intros x Hx. by rewrite lookup_alter_eq, Hx.
Qed.

(** Time passes while one expiry timer is armed. *)
Lemma elapse_one_timer h deadline d w :
  timers w = {[h := {| deadline := deadline; action := ExpireSnapshot |}]} →
  let w' := elapse d w in
  (if Qle_bool deadline (now w + d)
   then snapshotPromise w' = None ∧ timers w' = ∅
   else snapshotPromise w' = snapshotPromise w ∧ timers w' = timers w)
  ∧ promises w' = promises w ∧ fetches w' = fetches w ∧ resizes w' = resizes w
  ∧ downloads w' = downloads w ∧ next w' = next w
  ∧ visitorSnapshot w' = visitorSnapshot w
  ∧ alternativeSnapshot w' = alternativeSnapshot w.
Proof.
  intros Ht. open_snapshot_world w. simpl in Ht. subst tim.
  unfold elapse, budget. cbn [timers now]. rewrite map_size_singleton.
  cbn [run]. cbn [timers]. rewrite due_singleton. cbn [EventLoop.deadline].
  destruct (Qle_bool deadline (nw + d)) eqn:E.
  - unfold fire. plumb_snapshot. rewrite delete_singleton_eq, due_empty.
    plumb_snapshot. repeat split.
  - plumb_snapshot. repeat split.
Qed.
End SnapshotFacts.

(** C6. The slot is empty, no expiry timer is armed and an image is at
    hand. Two requests come before the fetch of the first has closed: one
    fetch run is spawned, for the promise that both await. When it closes
    with an image, both requests go on with that same image, and the slot
    still holds the promise; it holds it for every time short of 3
    seconds; after 3 seconds or more (4 seconds, say) it is empty and a
    further request spawns a second fetch run under a new promise. *)
Theorem snapshot_requests_coalesce cfg cameraName w r1 r2 r3 c1 c2 c3 image data :
  Snapshot.snapshotPromise w = None →
  Snapshot.timers w = ∅ →
  Snapshot.currentImage w = Some image →
  data ≠ ""%string →
  let p := Snapshot.next w in
  let f := S (Snapshot.next w) in
  let w1 := Snapshot.handleSnapshotRequest cfg cameraName r1 c1 w in
  let w2 := Snapshot.handleSnapshotRequest cfg cameraName r2 c2 w1 in
  let w3 := Snapshot.fetch_close cameraName f (Snapshot.fetch_stdout f data w2) in
  Snapshot.snapshotPromise w1 = Some p
  ∧ Snapshot.snapshotPromise w2 = Some p
  ∧ Snapshot.fetches w2
    = <[f := Snapshot.newFetch p (snapshotFilter (Snapshot.planned cfg r1)) image
               (Snapshot.now w)]>
        (Snapshot.fetches w)
  ∧ Snapshot.resizes w3
    = <[S (S (S f)) := Snapshot.newResize c2 (Snapshot.planned cfg r2) data]>
        (<[S (S f) := Snapshot.newResize c1 (Snapshot.planned cfg r1) data]>
           (Snapshot.resizes w))
  ∧ Snapshot.snapshotPromise w3 = Some p
  ∧ (∀ d, Qlt d 3000 → Snapshot.snapshotPromise (Snapshot.elapse d w3) = Some p)
  ∧ (∀ d, Qle 3000 d →
       let w4 := Snapshot.elapse d w3 in
       let w5 := Snapshot.handleSnapshotRequest cfg cameraName r3 c3 w4 in
       Snapshot.snapshotPromise w4 = None
       ∧ Snapshot.snapshotPromise w5 = Some (S (S (S (S f))))
       ∧ Snapshot.fetches w5 !! S (S (S (S (S f))))
         = Some (Snapshot.newFetch (S (S (S (S f))))
                   (snapshotFilter (Snapshot.planned cfg r3)) image (Snapshot.now w4))).
Proof.
  intros Hslot Htimers Himage Hdata p f w1 w2 w3.
  destruct (request_fresh cfg cameraName r1 c1 w image Hslot Himage)
    as (S1 & P1 & F1 & Z1 & D1 & T1 & N1 & C1 & V1 & A1).
  fold w1 in S1, P1, F1, Z1, D1, T1, N1, C1, V1, A1. fold p in S1, P1, F1.
  destruct (request_cached cfg cameraName r2 c2 w1 p S1)
    as (S2 & F2 & D2 & T2 & C2 & V2 & A2 & K2).
  fold w2 in S2, F2, D2, T2, C2, V2, A2, K2.
  specialize (K2 _ ltac:(rewrite P1; apply lookup_insert_eq)). cbn [Snapshot.settled] in K2.
  destruct K2 as (N2 & Z2 & P2). cbn [Snapshot.waiters app] in P2.
  rewrite P1, insert_insert_eq in P2.
  set (w2f := Snapshot.fetch_stdout f data w2) in *.
  destruct (fetch_stdout_frame f data w2)
    as (S2f & P2f & T2f & Z2f & N2f & C2f & V2f & A2f & D2f & Hf).
  fold w2f in S2f, P2f, T2f, Z2f, N2f, C2f, V2f, A2f, D2f, Hf.
  specialize (Hf _ ltac:(rewrite F2, F1; apply lookup_insert_eq)).
  cbn [Snapshot.newFetch Snapshot.f_promise Snapshot.f_filter Snapshot.f_input
       Snapshot.snapshotBuffer Snapshot.f_startTime Snapshot.f_closed String.append] in Hf.
  rewrite S2 in S2f. rewrite T2, T1, Htimers in T2f. rewrite Z2, Z1 in Z2f.
  rewrite N2, N1 in N2f. rewrite C2, C1 in C2f. rewrite V2, V1 in V2f.
  rewrite A2, A1 in A2f.
  destruct (fetch_close_two_waiters cameraName f _
              {| Snapshot.w_callback := c1; Snapshot.w_resolution := Snapshot.planned cfg r1;
                 Snapshot.w_cached := false |}
              {| Snapshot.w_callback := c2; Snapshot.w_resolution := Snapshot.planned cfg r2;
                 Snapshot.w_cached := true |} w2f Hf eq_refl Hdata)
    as (S3 & T3 & P3 & Z3 & F3 & D3 & N3 & C3 & V3 & A3).
  { cbn [Snapshot.f_promise]. rewrite P2f, P2. apply lookup_insert_eq. }
  fold w3 in S3, T3, P3, Z3, F3, D3, N3, C3, V3, A3.
  cbn [Snapshot.w_callback Snapshot.w_resolution Snapshot.snapshotBuffer] in Z3.
  rewrite T2f, insert_empty in T3. rewrite N2f in T3, Z3, N3. rewrite Z2f in Z3.
  rewrite S2f in S3. rewrite C2f in T3, C3.
  split; [done|]. split; [done|]. split; [by rewrite F2|].
  split; [done|]. split; [done|].
  split.
  - intros d Hd.
    destruct (elapse_one_timer _ _ d w3 T3) as (Hif & _). rewrite C3 in Hif.
    destruct (Qle_bool (Snapshot.now w + 3 * 1000) (Snapshot.now w + d)) eqn:E.
    + apply Qle_bool_iff in E. lra.
    + destruct Hif as [-> _]. done.
  - intros d Hd w4 w5.
    destruct (elapse_one_timer _ _ d w3 T3) as (Hif & P4 & F4 & Z4 & D4 & N4 & V4 & A4).
    fold w4 in Hif, P4, F4, Z4, D4, N4, V4, A4. rewrite C3 in Hif.
    destruct (Qle_bool (Snapshot.now w + 3 * 1000) (Snapshot.now w + d)) eqn:E.
    2:{ assert (Qle (Snapshot.now w + 3 * 1000) (Snapshot.now w + d)) as Hle by lra.
        apply Qle_bool_iff in Hle. congruence. }
    destruct Hif as [S4 T4].
    assert (Snapshot.currentImage w4 = Some image) as Himage4.
    { unfold Snapshot.currentImage in *. by rewrite V4, A4, V3, A3, V2f, A2f. }
    destruct (request_fresh cfg cameraName r3 c3 w4 image S4 Himage4)
      as (S5 & _ & F5 & _).
    fold w5 in S5, F5. rewrite N4, N3 in S5, F5.
    split; [done|]. split; [done|]. rewrite F5. apply lookup_insert_eq.
Qed.

Lemma snapshot_requests_coalesce_witness :
  let w1 := Snapshot.handleSnapshotRequest videoConfig "cam" Sample.small 1 Sample.idle in
  let w2 := Snapshot.handleSnapshotRequest videoConfig "cam" Sample.large 2 w1 in
  let w3 := Snapshot.fetch_close "cam" 1 (Snapshot.fetch_stdout 1 "JPEG" w2) in
  let w4 := Snapshot.elapse 4000 w3 in
  let w5 := Snapshot.handleSnapshotRequest videoConfig "cam" Sample.small 3 w4 in
  Snapshot.snapshotPromise w2 = Some 0%nat
  ∧ Snapshot.snapshotPromise w3 = Some 0%nat
  ∧ Snapshot.snapshotPromise w4 = None
  ∧ Snapshot.snapshotPromise w5 = Some 5%nat.
Proof.
  intros w1 w2 w3 w4 w5.
  destruct (snapshot_requests_coalesce videoConfig "cam" Sample.idle
              Sample.small Sample.large Sample.small 1 2 3 "idle image" "JPEG")
    as (_ & S2 & _ & _ & S3 & _ & Hlate); [reflexivity..|discriminate|].
  destruct (Hlate 4000%Q) as (S4 & S5 & _); [vm_compute; discriminate|].
  repeat split; assumption.
Defined.

(** With the video filter "hflip" configured, a request for 640 x 480
    starts the fetch and a request for 1920 x 1080 finds its promise in
    the slot. The snapshot filter of the second request is "hflip", the
    same as that of the first, and it is the filter the fetch run was
    given: the image that the second caller gets was produced under its
    own snapshot filter. *)
Lemma cached_fetch_ran_under_same_filter :
  let w1 := Snapshot.handleSnapshotRequest Sample.flipped "cam" Sample.small 1 Sample.idle in
  let w2 := Snapshot.handleSnapshotRequest Sample.flipped "cam" Sample.large 2 w1 in
  snapshotFilter (Snapshot.planned Sample.flipped Sample.large) = Some "hflip"%string
  ∧ snapshotFilter (Snapshot.planned Sample.flipped Sample.small)
    = snapshotFilter (Snapshot.planned Sample.flipped Sample.large)
  ∧ Snapshot.f_filter <$> Snapshot.fetches w2 !! 1%nat
    = Some (snapshotFilter (Snapshot.planned Sample.flipped Sample.large))
  ∧ Snapshot.out w1 !! 2%nat
    = Some (Snapshot.OSpawnFetch 1
              "-i pipe: -frames:v 1 -filter:v hflip -f image2 - -hide_banner -loglevel error"
              "idle image").
Proof. vm_compute. repeat split. Qed.

(** C10, as the source has it. A request that finds a promise in the slot
    starts no fetch and no download and leaves the slot as it is; it
    awaits the promise that is there and, when that promise is resolved,
    goes into a resize of the image under its own resize filter. Its
    snapshot filter is passed to no fetch; that filter is read off the
    configuration alone and is the same for every request. *)
Theorem cached_snapshot_not_refetched cfg cameraName w request cb p :
  Snapshot.snapshotPromise w = Some p →
  let w' := Snapshot.handleSnapshotRequest cfg cameraName request cb w in
  Snapshot.snapshotPromise w' = Some p
  ∧ Snapshot.fetches w' = Snapshot.fetches w
  ∧ Snapshot.downloads w' = Snapshot.downloads w
  ∧ (∀ pr, Snapshot.promises w !! p = Some pr →
       match Snapshot.settled pr with
       | None =>
           Snapshot.resizes w' = Snapshot.resizes w
           ∧ Snapshot.promises w'
             = <[p := {| Snapshot.settled := None;
                         Snapshot.waiters :=
                           Snapshot.waiters pr
                           ++ [{| Snapshot.w_callback := cb;
                                  Snapshot.w_resolution := Snapshot.planned cfg request;
                                  Snapshot.w_cached := true |}] |}]> (Snapshot.promises w)
       | Some (JS.Returned snapshot) =>
           Snapshot.resizes w'
           = <[Snapshot.next w :=
                 {| Snapshot.z_callback := cb;
                    Snapshot.z_filter := resizeFilter (Snapshot.planned cfg request);
                    Snapshot.z_input := snapshot;
                    Snapshot.resizeBuffer := "";
                    Snapshot.z_settled := false |}]> (Snapshot.resizes w)
       | Some (JS.Thrown err) => Snapshot.resizes w' = Snapshot.resizes w
       end)
  ∧ (∀ other,
       snapshotFilter (Snapshot.planned cfg request)
       = snapshotFilter (Snapshot.planned cfg other)).
Proof.
  intros Hslot w'.
  destruct (request_cached cfg cameraName request cb w p Hslot)
    as (S & F & D & _ & _ & _ & _ & K).
  fold w' in S, F, D, K.
  split; [done|]. split; [done|]. split; [done|]. split; [|done].
  intros pr Hpr. specialize (K pr Hpr).
  destruct (Snapshot.settled pr) as [[snapshot|err]|].
  - exact K.
  - exact (proj1 K).
  - destruct K as (_ & Hz & Hp). by split.
Qed.

Lemma cached_snapshot_not_refetched_witness :
  let w1 := Snapshot.handleSnapshotRequest Sample.flipped "cam" Sample.small 1 Sample.idle in
  let w2 := Snapshot.handleSnapshotRequest Sample.flipped "cam" Sample.large 2 w1 in
  Snapshot.snapshotPromise w1 = Some 0%nat
  ∧ Snapshot.snapshotPromise w2 = Some 0%nat
  ∧ Snapshot.fetches w2 = Snapshot.fetches w1.
Proof.
  intros w1 w2.
  assert (Snapshot.snapshotPromise w1 = Some 0%nat) as Hslot by (vm_compute; reflexivity).
  destruct (cached_snapshot_not_refetched Sample.flipped "cam" w1 Sample.large 2 0%nat Hslot)
    as (S & F & _).
  repeat split; assumption.
Defined.


(** ** The motion timer *)



Section MotionFacts.
Import EventLoop Motion.











End MotionFacts.



